(** * meshrefine: the refine-and-export command-line script

    A shallow embedding of [src/meshrefine/refine_and_export.py].

    The script is a driver: it derives output paths from the input path,
    parses the refinement factors, loads a Zinc region, walks the elements
    of the dominant mesh handing each one to scaffoldmaker's
    [MeshRefinement], and writes the refined region twice.

    - Python built-ins used by the script ([str.split], list indexing,
      [int] on a one-character string, [range], [posixpath.basename],
      [dirname], [join]) are written out as functions on [string] and [Z].
    - Exceptions are a [result] type; only the exception class is kept,
      not its message.
    - The Zinc / scaffoldmaker runtime is not part of the repository: it is
      a record of operations ([Runtime]) the script is parameterised by.
    - Observable effects (files read, meshes looked up, elements refined,
      files written) are recorded as a trace of [Event]s. *)

From Stdlib Require Import String Ascii List ZArith Lia Bool.
Import ListNotations.

Local Open Scope string_scope.
Local Open Scope Z_scope.

(* ===================================================================== *)
(** ** Python values and exceptions *)
(* ===================================================================== *)

Module Py.

(** The exception classes that can leave the script.  [LibraryError] stands
    for an exception raised inside the external runtime, named by class. *)
Inductive exn : Type :=
| IndexError
| ValueError
| LibraryError (class_name : string).

Inductive result (A : Type) : Type :=
| Ok (a : A)
| Raise (e : exn).

Arguments Ok {A} a.
Arguments Raise {A} e.

Definition is_ok {A : Type} (r : result A) : bool :=
  match r with Ok _ => true | Raise _ => false end.

(** [len(l)] *)
Definition len {A : Type} (l : list A) : Z := Z.of_nat (List.length l).

(** [l[i]]: a negative index counts from the end, an index out of range
    raises [IndexError]. *)
Definition index {A : Type} (l : list A) (i : Z) : result A :=
  let j := if i <? 0 then i + len l else i in
  if j <? 0 then Raise IndexError
  else match nth_error l (Z.to_nat j) with
       | Some a => Ok a
       | None => Raise IndexError
       end.

(** [s.split(sep)] for a one-character separator: the pieces between the
    occurrences of [sep], never an empty list. *)
Fixpoint split (sep : ascii) (s : string) : list string :=
  match s with
  | EmptyString => [EmptyString]
  | String c s' =>
      if Ascii.eqb c sep then EmptyString :: split sep s'
      else match split sep s' with
           | [] => [String c EmptyString]
           | piece :: pieces => String c piece :: pieces
           end
  end.

(** [s.rfind(sep)] for a one-character [sep]: the index of its last
    occurrence, [-1] when there is none. *)
Fixpoint rfind (sep : ascii) (s : string) : Z :=
  match s with
  | EmptyString => -1
  | String c s' =>
      let r := rfind sep s' in
      if 0 <=? r then r + 1
      else if Ascii.eqb c sep then 0 else -1
  end.

(** [s[:i]] and [s[i:]] for [0 <= i]. *)
Fixpoint take (n : nat) (s : string) : string :=
  match n, s with
  | S n', String c s' => String c (take n' s')
  | _, _ => EmptyString
  end.

Fixpoint drop (n : nat) (s : string) : string :=
  match n, s with
  | S n', String _ s' => drop n' s'
  | _, _ => s
  end.

Definition slice_to (s : string) (i : Z) : string := take (Z.to_nat i) s.
Definition slice_from (s : string) (i : Z) : string := drop (Z.to_nat i) s.

(** [s.startswith(c)], [s.endswith(c)] for a one-character [c]. *)
Definition startswith (s : string) (c : ascii) : bool :=
  match s with
  | String c' _ => Ascii.eqb c' c
  | EmptyString => false
  end.

Fixpoint endswith (s : string) (c : ascii) : bool :=
  match s with
  | EmptyString => false
  | String c' EmptyString => Ascii.eqb c' c
  | String _ s' => endswith s' c
  end.

(** [s.rstrip(c)]: the trailing run of [c] removed. *)
Fixpoint rstrip (s : string) (c : ascii) : string :=
  match s with
  | EmptyString => EmptyString
  | String c' s' =>
      match rstrip s' c with
      | EmptyString => if Ascii.eqb c' c then EmptyString else String c' EmptyString
      | rest => String c' rest
      end
  end.

(** [s == c * len(s)]: every character of [s] is [c]. *)
Fixpoint all_chars (c : ascii) (s : string) : bool :=
  match s with
  | EmptyString => true
  | String c' s' => Ascii.eqb c' c && all_chars c s'
  end.

(** [s.count(c)] *)
Fixpoint count (c : ascii) (s : string) : Z :=
  match s with
  | EmptyString => 0
  | String c' s' => (if Ascii.eqb c' c then 1 else 0) + count c s'
  end.

(** The decimal digits among the code points 0..255 are the ten ASCII
    digits ([str.isdecimal]); a [string] here holds such code points. *)
Definition is_decimal (c : ascii) : bool :=
  let n := Z.of_N (N_of_ascii c) in (48 <=? n) && (n <=? 57).

(** [int(c)] for a one-character string [c]. *)
Definition int_of_char (c : ascii) : result Z :=
  if is_decimal c then Ok (Z.of_N (N_of_ascii c) - 48) else Raise ValueError.

(** [[f(i) for i in l]]: left to right, the first exception ends it. *)
Fixpoint comprehension {A B : Type} (f : A -> result B) (l : list A)
  : result (list B) :=
  match l with
  | [] => Ok []
  | a :: l' =>
      match f a with
      | Raise e => Raise e
      | Ok b =>
          match comprehension f l' with
          | Raise e => Raise e
          | Ok bs => Ok (b :: bs)
          end
      end
  end.

(** [range(start, stop, -1)] *)
Definition range_down (start stop : Z) : list Z :=
  map (fun k => start - Z.of_nat k) (seq 0 (Z.to_nat (start - stop))).

End Py.

(* ===================================================================== *)
(** ** [os.path] on a POSIX system *)
(* ===================================================================== *)

Module PosixPath.
Import Py.

Definition sep : ascii := "/"%char.

(** [i = p.rfind(sep) + 1; return p[i:]] *)
Definition basename (p : string) : string :=
  let i := rfind sep p + 1 in
  slice_from p i.

(** [i = p.rfind(sep) + 1; head = p[:i];
     if head and head != sep*len(head): head = head.rstrip(sep)] *)
Definition dirname (p : string) : string :=
  let i := rfind sep p + 1 in
  let head := slice_to p i in
  if negb (String.eqb head "") && negb (all_chars sep head)
  then rstrip head sep
  else head.

(** [os.path.join(a, b)] with one component [b]. *)
Definition join (a b : string) : string :=
  if startswith b sep then b
  else if String.eqb a "" || endswith a sep then a ++ b
  else a ++ String sep b.

End PosixPath.

(* ===================================================================== *)
(** ** Effects: a trace of events and exceptions *)
(* ===================================================================== *)

Section Events.
Context {Element : Type}.

(** What a run does to the outside world, in order.  An event is recorded
    when the call is made, whether or not the call then raises. *)
Inductive Event : Type :=
| EvReadFile (path : string)                  (* region.readFile(path) *)
| EvFindMesh (dimension : Z)                  (* findMeshByDimension(d) *)
| EvRefine (element : Element) (n1 n2 n3 : Z) (* refineElementCubeStandard3d *)
| EvWriteFile (path : string)                 (* refined_region.writeFile *)
| EvWriteVtk (path : string).                 (* exportvtk.writeFile *)

Definition is_write (ev : Event) : bool :=
  match ev with
  | EvWriteFile _ | EvWriteVtk _ => true
  | _ => false
  end.

Definition is_refine (ev : Event) : bool :=
  match ev with
  | EvRefine _ _ _ _ => true
  | _ => false
  end.

(** A computation: the events it emitted and how it ended. *)
Definition Run (A : Type) : Type := list Event * Py.result A.

Definition ret {A : Type} (a : A) : Run A := ([], Py.Ok a).

Definition bind {A B : Type} (m : Run A) (f : A -> Run B) : Run B :=
  match m with
  | (t, Py.Ok a) => let '(t', r) := f a in ((t ++ t')%list, r)
  | (t, Py.Raise e) => (t, Py.Raise e)
  end.

Definition emit (ev : Event) : Run unit := ([ev], Py.Ok tt).
Definition lift {A : Type} (r : Py.result A) : Run A := ([], r).
Definition raise {A : Type} (e : Py.exn) : Run A := ([], Py.Raise e).

Definition trace {A : Type} (m : Run A) : list Event := fst m.
Definition outcome {A : Type} (m : Run A) : Py.result A := snd m.

End Events.

Arguments Event : clear implicits.

Declare Scope run_scope.
Delimit Scope run_scope with run.
Notation "x <- m ;; k" := (bind m (fun x => k))
  (at level 61, m at next level, right associativity) : run_scope.
Notation "m ;;; k" := (bind m (fun _ => k))
  (at level 61, right associativity) : run_scope.
Local Open Scope run_scope.

(* ===================================================================== *)
(** ** The external runtime *)
(* ===================================================================== *)

(** A Zinc mesh: its dimension and its elements in iterator order;
    [getSize()] is the number of elements. *)
Record Mesh (Element : Type) : Type := {
  mesh_dimension : Z;
  mesh_elements : list Element
}.
Arguments mesh_dimension {Element} m.
Arguments mesh_elements {Element} m.

Definition getSize {Element : Type} (mesh : Mesh Element) : Z :=
  Py.len (mesh_elements mesh).

(** The operations of the operating system, OpenCMISS-Zinc and
    scaffoldmaker that the script calls.  Any of the calls that do work
    may raise. *)
Record Runtime : Type := {
  Region : Type;
  Element : Type;
  Refinement : Type;
  (** [os.path.exists] *)
  path_exists : string -> bool;
  (** [ZincContext("RefineContext").getDefaultRegion()] *)
  getDefaultRegion : Region;
  (** [region.readFile(path)] *)
  readFile : Region -> string -> Py.result Region;
  (** [get_group_list], [AnnotationGroup], [defineAllFaces],
      [addSubelements] of [__init__] *)
  annotate : Region -> Py.result Region;
  (** [fieldmodule.findMeshByDimension(dimension)] *)
  findMeshByDimension : Region -> Z -> Mesh Element;
  (** [region.createChild('RefinedRegion')] and [MeshRefinement(...)] *)
  MeshRefinement : Region -> Py.result Refinement;
  (** [mesh_refinement.refineElementCubeStandard3d(element, n1, n2, n3)] *)
  refineElementCubeStandard3d :
    Refinement -> Element -> Z -> Z -> Z -> Py.result Refinement;
  (** [refined_region.writeFile(path)] *)
  writeFile : Refinement -> string -> Py.result unit;
  (** [ExportVtk(refined_region, description, groups).writeFile(path)] *)
  exportVtk : Refinement -> string -> string -> Py.result unit
}.

(* ===================================================================== *)
(** ** The script *)
(* ===================================================================== *)

(** The namespace [parse_args] fills: the positional argument and the four
    options, each [None] when absent from the command line. *)
Record ProgramArguments : Type := {
  input_ex : string;
  exelem : option string;
  refine_factor : option string;
  output_ex : option string;
  output_vtk : option string
}.

(** [filename.split('.')[0] + '_refined.' + filename.split('.')[1]]
    joined to [dirname] (lines 81-83). *)
Definition default_output_ex (input : string) : Py.result string :=
  let filename := PosixPath.basename input in
  let dirname := PosixPath.dirname input in
  match Py.index (Py.split "."%char filename) 0 with
  | Py.Raise e => Py.Raise e
  | Py.Ok stem =>
      match Py.index (Py.split "."%char filename) 1 with
      | Py.Raise e => Py.Raise e
      | Py.Ok ext => Py.Ok (PosixPath.join dirname (stem ++ "_refined." ++ ext))
      end
  end.

(** [filename.split('.')[0] + '_refined.vtk'] joined to [dirname]
    (lines 88-90). *)
Definition default_output_vtk (input : string) : Py.result string :=
  let filename := PosixPath.basename input in
  let dirname := PosixPath.dirname input in
  match Py.index (Py.split "."%char filename) 0 with
  | Py.Raise e => Py.Raise e
  | Py.Ok stem => Py.Ok (PosixPath.join dirname (stem ++ "_refined.vtk"))
  end.

(** [[int(i) for i in list(args.refine_factor)]] (line 100). *)
Definition parse_refine_factor (s : string) : Py.result (list Z) :=
  Py.comprehension Py.int_of_char (list_ascii_of_string s).

(** The keyword arguments [main] hands to [RefineAndExport]. *)
Record InitArguments : Type := {
  input_zinc_file : string;
  input_exelem_file : option string;
  refine : list Z;
  output_zinc_file : string;
  output_vtk_file : string
}.

(** Lines 80-106 of [main]: the arguments of the [RefineAndExport] call.
    The local [exelem_file] of lines 94-95 is assigned and never read; the
    call passes [input_exelem_file=None]. *)
Definition main_call (args : ProgramArguments) : Py.result InitArguments :=
  match (match output_ex args with
         | None => default_output_ex (input_ex args)
         | Some p => Py.Ok p
         end) with
  | Py.Raise e => Py.Raise e
  | Py.Ok out_ex =>
      match (match output_vtk args with
             | None => default_output_vtk (input_ex args)
             | Some p => Py.Ok p
             end) with
      | Py.Raise e => Py.Raise e
      | Py.Ok out_vtk =>
          match (match refine_factor args with
                 | None => Py.Ok [4; 4; 1]
                 | Some s => parse_refine_factor s
                 end) with
          | Py.Raise e => Py.Raise e
          | Py.Ok factors =>
              Py.Ok {| input_zinc_file := input_ex args;
                       input_exelem_file := None;
                       refine := factors;
                       output_zinc_file := out_ex;
                       output_vtk_file := out_vtk |}
          end
      end
  end.

Section Script.
Context (rt : Runtime).

(** The subdivision counts of one pass through the loop body
    (lines 56-64). *)
Definition numbers_in_xi (factors : list Z) : Py.result (Z * Z * Z) :=
  match Py.index factors 0 with
  | Py.Raise e => Py.Raise e
  | Py.Ok number_in_xi1 =>
      match (if 1 <? Py.len factors then Py.index factors 1 else Py.Ok 1) with
      | Py.Raise e => Py.Raise e
      | Py.Ok number_in_xi2 =>
          match (if 2 <? Py.len factors then Py.index factors 2 else Py.Ok 1) with
          | Py.Raise e => Py.Raise e
          | Py.Ok number_in_xi3 =>
              Py.Ok (number_in_xi1, number_in_xi2, number_in_xi3)
          end
      end
  end.

(** [while element.isValid(): ...] over the elements the iterator yields
    (lines 55-66). *)
Fixpoint refine_loop (factors : list Z) (mesh_refinement : Refinement rt)
    (elements : list (Element rt)) : @Run (Element rt) (Refinement rt) :=
  match elements with
  | [] => ret mesh_refinement
  | element :: rest =>
      ns <- lift (numbers_in_xi factors) ;;
      let '(n1, n2, n3) := ns in
      emit (EvRefine element n1 n2 n3) ;;;
      mesh_refinement' <-
        lift (refineElementCubeStandard3d rt mesh_refinement element n1 n2 n3) ;;
      refine_loop factors mesh_refinement' rest
  end.

(** [for dimension in range(3, 0, -1): ...; raise ValueError(...)]
    (lines 70-74), over the dimensions still to try. *)
Fixpoint get_mesh_in (region : Region rt) (dimensions : list Z)
  : @Run (Element rt) (Mesh (Element rt)) :=
  match dimensions with
  | [] => raise Py.ValueError
  | dimension :: rest =>
      emit (EvFindMesh dimension) ;;;
      let mesh := findMeshByDimension rt region dimension in
      if 0 <? getSize mesh then ret mesh else get_mesh_in region rest
  end.

Definition _get_mesh (region : Region rt) : @Run (Element rt) (Mesh (Element rt)) :=
  get_mesh_in region (Py.range_down 3 0).

(** [_refine] (lines 49-67). *)
Definition _refine (region : Region rt) (factors : list Z)
  : @Run (Element rt) (Refinement rt) :=
  mesh_refinement <- lift (MeshRefinement rt region) ;;
  mesh <- _get_mesh region ;;
  refine_loop factors mesh_refinement (mesh_elements mesh).

(** [RefineAndExport.__init__] (lines 23-47). *)
Definition RefineAndExport (a : InitArguments) : @Run (Element rt) unit :=
  emit (EvReadFile (input_zinc_file a)) ;;;
  region <- lift (readFile rt (getDefaultRegion rt) (input_zinc_file a)) ;;
  region <- match input_exelem_file a with
            | Some path =>
                emit (EvReadFile path) ;;;
                lift (readFile rt region path)
            | None => ret region
            end ;;
  region <- lift (annotate rt region) ;;
  refined <- _refine region (refine a) ;;
  emit (EvWriteFile (output_zinc_file a)) ;;;
  lift (writeFile rt refined (output_zinc_file a)) ;;;
  let description := "Stomach Scaffold" in
  emit (EvWriteVtk (output_vtk_file a)) ;;;
  lift (exportVtk rt refined description (output_vtk_file a)).

(** [main] (lines 77-106), after [parse_args]. *)
Definition main (args : ProgramArguments) : @Run (Element rt) unit :=
  if path_exists rt (input_ex args) then
    a <- lift (main_call args) ;;
    RefineAndExport a
  else ret tt.

End Script.

(* ===================================================================== *)
(** ** The specification's reading of the default output paths *)
(* ===================================================================== *)

Module Spec.
Import Py.

(** The file name cut at its extension, the extension being what starts at
    the last ['.'] (as [os.path.splitext] cuts ["mesh.exf"]); a name
    without ['.'] has an empty extension. *)
Definition splitext (filename : string) : string * string :=
  let i := rfind "."%char filename in
  if i <? 0 then (filename, "")
  else (slice_to filename i, slice_from filename i).

(** ["_refined"] inserted before the extension of the input's file name,
    beside the input. *)
Definition default_output_ex (input : string) : string :=
  let '(stem, ext) := splitext (PosixPath.basename input) in
  PosixPath.join (PosixPath.dirname input) (stem ++ "_refined" ++ ext).

(** The input's file name without its extension followed by
    ["_refined.vtk"], beside the input. *)
Definition default_output_vtk (input : string) : string :=
  let '(stem, _) := splitext (PosixPath.basename input) in
  PosixPath.join (PosixPath.dirname input) (stem ++ "_refined.vtk").

(** The whole file name followed by ["_refined.vtk"], beside the input. *)
Definition default_output_vtk_full_name (input : string) : string :=
  PosixPath.join (PosixPath.dirname input)
                 (PosixPath.basename input ++ "_refined.vtk").

End Spec.

(* ===================================================================== *)
(** ** A runtime after the specification's engine *)
(* ===================================================================== *)

Module SpecEngine.
Import Py.

(** A model file: its elements as (dimension, identifier), in file
    order. *)
Definition Model : Type := list (Z * nat).

(** The paths that exist, each with the model it holds, or [None] when it
    is not a well-formed model file. *)
Definition FileSystem : Type := list (string * option Model).

Fixpoint lookup (fs : FileSystem) (path : string) : option (option Model) :=
  match fs with
  | [] => None
  | (p, content) :: fs' =>
      if String.eqb p path then Some content else lookup fs' path
  end.

Definition exists_ (fs : FileSystem) (path : string) : bool :=
  match lookup fs path with Some _ => true | None => false end.

(** Modelled from the spec: the mesh model's [load] of section 4.1, which
    merges the file's elements into the region and "fails with
    [FormatError] on malformed input or [NotFoundError] if the path does
    not exist". *)
Definition load (fs : FileSystem) (region : Model) (path : string)
  : result Model :=
  match lookup fs path with
  | None => Raise (LibraryError "NotFoundError")
  | Some None => Raise (LibraryError "FormatError")
  | Some (Some m) => Ok (region ++ m)%list
  end.

Definition mesh_of (region : Model) (dimension : Z) : Mesh nat :=
  {| mesh_dimension := dimension;
     mesh_elements :=
       map snd (filter (fun de => fst de =? dimension) region) |}.

(** The refined region: for each source element refined so far, the
    number of child elements it was cut into. *)
Definition Refined : Type := list (nat * Z).

(** Modelled from the spec: the refinement engine of section 4.3, which
    fails with [InvalidRefinementSpecError] for "any subdivision count
    < 1" and otherwise cuts the element into [n1 * n2 * n3] children
    (section 8). Every element is a well-shaped cube. *)
Definition refine_element (refined : Refined) (element : nat)
    (n1 n2 n3 : Z) : result Refined :=
  if (n1 <? 1) || (n2 <? 1) || (n3 <? 1)
  then Raise (LibraryError "InvalidRefinementSpecError")
  else Ok (refined ++ [(element, n1 * n2 * n3)])%list.

(** Modelled from the spec: the runtime the script assumes, with the
    loader and the engine above; annotation groups are not modelled and
    every destination is writable. *)
Definition runtime (fs : FileSystem) : Runtime :=
  {| Region := Model;
     Element := nat;
     Refinement := Refined;
     path_exists := exists_ fs;
     getDefaultRegion := [];
     readFile := load fs;
     annotate := fun region => Ok region;
     findMeshByDimension := mesh_of;
     MeshRefinement := fun _ => Ok [];
     refineElementCubeStandard3d := refine_element;
     writeFile := fun _ _ => Ok tt;
     exportVtk := fun _ _ _ => Ok tt |}.

(** A directory with a one-hexahedron model, a two-quadrilateral model,
    a model whose name has two dots, one whose name has none, a
    supplementary element file, and a file that holds no elements. *)
Definition sample_fs : FileSystem :=
  [ ("/data/mesh.exf", Some [(3, 1%nat)]);
    ("/data/quads.exf", Some [(2, 1%nat); (2, 2%nat)]);
    ("/data/a.b.c", Some [(3, 1%nat)]);
    ("/data/mesh", Some [(3, 1%nat)]);
    ("/data/mesh.exelem", Some [(3, 7%nat)]);
    ("/data/empty.exf", Some []) ].

Definition sample : Runtime := runtime sample_fs.

End SpecEngine.

(** Whether the external refinement routine refuses a subdivision count
    below one, as the specification's engine does. *)
Definition rejects_invalid_counts (rt : Runtime) : Prop :=
  forall mr element n1 n2 n3,
    n1 < 1 \/ n2 < 1 \/ n3 < 1 ->
    refineElementCubeStandard3d rt mr element n1 n2 n3 =
    Py.Raise (Py.LibraryError "InvalidRefinementSpecError").

(** The invocation [refine_and_export.py input] with the given options. *)
Definition invocation (input : string) (r oe ov : option string)
  : ProgramArguments :=
  {| input_ex := input; exelem := None; refine_factor := r;
     output_ex := oe; output_vtk := ov |}.

(* ===================================================================== *)
(** * Facts about the Python primitives *)
(* ===================================================================== *)

Section PyFacts.
Import Py.

Lemma len_nonneg {A : Type} (l : list A) : 0 <= len l.
Proof. unfold len. lia. Qed.

Lemma len_cons {A : Type} (a : A) (l : list A) : len (a :: l) = len l + 1.
Proof. unfold len. cbn [List.length]. lia. Qed.

(** Indexing with a natural number is [nth_error]. *)
Lemma index_of_nat {A : Type} (l : list A) (n : nat) :
  index l (Z.of_nat n) =
  match nth_error l n with Some a => Ok a | None => Raise IndexError end.
Proof.
  unfold index.
  replace (Z.of_nat n <? 0) with false by (symmetry; apply Z.ltb_ge; lia).
  cbv zeta.
  replace (Z.of_nat n <? 0) with false by (symmetry; apply Z.ltb_ge; lia).
  now rewrite Nat2Z.id.
Qed.

Lemma index_0 {A : Type} (l : list A) :
  index l 0 = match l with a :: _ => Ok a | [] => Raise IndexError end.
Proof. change 0 with (Z.of_nat 0). rewrite index_of_nat. now destruct l. Qed.

Lemma index_1 {A : Type} (l : list A) :
  index l 1 =
  match l with _ :: b :: _ => Ok b | _ => Raise IndexError end.
Proof.
  change 1 with (Z.of_nat 1). rewrite index_of_nat.
  destruct l as [|a [|b l]]; reflexivity.
Qed.

Lemma index_2 {A : Type} (l : list A) :
  index l 2 =
  match l with _ :: _ :: c :: _ => Ok c | _ => Raise IndexError end.
Proof.
  change 2 with (Z.of_nat 2). rewrite index_of_nat.
  destruct l as [|a [|b [|c l]]]; reflexivity.
Qed.

Lemma count_nonneg (c : ascii) (s : string) : 0 <= count c s.
Proof.
  induction s as [|c' s IH]; cbn [count]; [lia|].
  destruct (Ascii.eqb c' c); lia.
Qed.

Lemma split_not_nil (sep : ascii) (s : string) : split sep s <> [].
Proof.
  induction s as [|c s IH]; cbn [split]; [discriminate|].
  destruct (Ascii.eqb c sep); [discriminate|].
  destruct (split sep s); discriminate.
Qed.

(** [split] yields one piece more than there are separators. *)
Lemma len_split (sep : ascii) (s : string) :
  len (split sep s) = count sep s + 1.
Proof.
  induction s as [|c s IH]; cbn [split count]; [reflexivity|].
  destruct (Ascii.eqb c sep).
  - rewrite len_cons, IH. lia.
  - destruct (split sep s) as [|p ps] eqn:E.
    + now apply split_not_nil in E.
    + rewrite len_cons in *. lia.
Qed.

Lemma split_no_sep (sep : ascii) (s : string) :
  count sep s = 0 -> split sep s = [s].
Proof.
  induction s as [|c s IH]; cbn [split count]; [reflexivity|].
  pose proof (count_nonneg sep s).
  destruct (Ascii.eqb c sep); [lia|].
  intros H0. rewrite IH by lia. reflexivity.
Qed.

(** With exactly one separator the string is cut in two around it. *)
Lemma split_one_sep (sep : ascii) (s : string) :
  count sep s = 1 ->
  exists a b, split sep s = [a; b] /\ s = (a ++ String sep b)%string /\
              count sep a = 0 /\ count sep b = 0.
Proof.
  induction s as [|c s IH]; cbn [split count]; [discriminate|].
  pose proof (count_nonneg sep s).
  destruct (Ascii.eqb c sep) eqn:E; intros H1.
  - apply Ascii.eqb_eq in E. subst c.
    exists EmptyString, s. rewrite split_no_sep by lia.
    repeat split; try reflexivity. lia.
  - destruct IH as (a & b & Hs & Hab & Ha & Hb); [lia|].
    exists (String c a), b. rewrite Hs. subst s.
    repeat split; try assumption. cbn [count]. rewrite E. lia.
Qed.

(** The first piece of [split] is the text before the first separator. *)
Lemma split_head (sep : ascii) (s : string) :
  exists a rest, split sep s = a :: rest /\ count sep a = 0 /\
    (count sep s = 0 -> a = s).
Proof.
  induction s as [|c s IH]; cbn [split count].
  - exists EmptyString, []. repeat split.
  - destruct (Ascii.eqb c sep) eqn:E.
    + exists EmptyString, (split sep s). repeat split.
      pose proof (count_nonneg sep s). lia.
    + destruct IH as (a & rest & Hs & Ha & Hall). rewrite Hs.
      exists (String c a), rest. repeat split.
      * cbn [count]. rewrite E. lia.
      * intros H0. f_equal. apply Hall. lia.
Qed.

Lemma rfind_no_sep (sep : ascii) (s : string) :
  count sep s = 0 -> rfind sep s = -1.
Proof.
  induction s as [|c s IH]; cbn [rfind count]; [reflexivity|].
  pose proof (count_nonneg sep s).
  destruct (Ascii.eqb c sep); [lia|].
  intros H0. rewrite IH by lia. reflexivity.
Qed.

Lemma rfind_last_sep (sep : ascii) (a b : string) :
  count sep b = 0 ->
  rfind sep (a ++ String sep b) = Z.of_nat (String.length a).
Proof.
  intros Hb. induction a as [|c a IH].
  - cbn [append rfind String.length]. rewrite rfind_no_sep by assumption.
    cbn. now rewrite Ascii.eqb_refl.
  - cbn [append rfind String.length]. rewrite IH.
    replace (0 <=? Z.of_nat (String.length a)) with true
      by (symmetry; apply Z.leb_le; lia).
    lia.
Qed.

Lemma take_app (a b : string) : take (String.length a) (a ++ b) = a.
Proof.
  induction a as [|c a IH]; cbn [append String.length take].
  - now destruct b.
  - now rewrite IH.
Qed.

Lemma drop_app (a b : string) : drop (String.length a) (a ++ b) = b.
Proof.
  induction a as [|c a IH]; cbn [append String.length drop]; [|exact IH].
  now destruct b.
Qed.

(** Every value [int] returns for one character is a single digit. *)
Lemma int_of_char_range (c : ascii) (n : Z) :
  int_of_char c = Ok n -> 0 <= n <= 9.
Proof.
  unfold int_of_char, is_decimal.
  destruct (48 <=? Z.of_N (N_of_ascii c)) eqn:E1; [|discriminate].
  destruct (Z.of_N (N_of_ascii c) <=? 57) eqn:E2; [|discriminate].
  cbn [andb]. intros [= <-].
  apply Z.leb_le in E1. apply Z.leb_le in E2. lia.
Qed.

Lemma int_of_char_not_decimal (c : ascii) :
  is_decimal c = false -> int_of_char c = Raise ValueError.
Proof. unfold int_of_char. now intros ->. Qed.

Lemma comprehension_all_ok {A B : Type} (f : A -> result B) (l : list A)
    (bs : list B) :
  comprehension f l = Ok bs -> Forall2 (fun a b => f a = Ok b) l bs.
Proof.
  revert bs. induction l as [|a l IH]; cbn [comprehension]; intros bs.
  - intros [= <-]. constructor.
  - destruct (f a) as [b|e] eqn:Ea; [|discriminate].
    destruct (comprehension f l) as [bs'|e]; [|discriminate].
    intros [= <-]. constructor; auto.
Qed.

Lemma comprehension_total {A B : Type} (f : A -> result B) (l : list A) :
  Forall (fun a => is_ok (f a) = true) l ->
  exists bs, comprehension f l = Ok bs.
Proof.
  induction 1 as [|a l Ha _ IH]; cbn [comprehension]; [now exists []|].
  destruct (f a) as [b|e]; [|discriminate].
  destruct IH as [bs ->]. now exists (b :: bs).
Qed.

Lemma comprehension_raises {A B : Type} (f : A -> result B) (l : list A)
    (e : exn) :
  (forall a e', f a = Raise e' -> e' = e) ->
  Exists (fun a => is_ok (f a) = false) l ->
  comprehension f l = Raise e.
Proof.
  intros Hf. induction 1 as [a l Ha|a l _ IH]; cbn [comprehension].
  - destruct (f a) as [b|e'] eqn:E; [discriminate|].
    now rewrite (Hf _ _ E).
  - destruct (f a) as [b|e'] eqn:E.
    + now rewrite IH.
    + now rewrite (Hf _ _ E).
Qed.

End PyFacts.

(* ===================================================================== *)
(** * Facts about runs *)
(* ===================================================================== *)

Section RunFacts.
Context {Element : Type}.
Implicit Types ev : Event Element.

Lemma trace_bind {A B : Type} (m : @Run Element A) (f : A -> @Run Element B) :
  trace (bind m f) =
  match outcome m with
  | Py.Ok a => (trace m ++ trace (f a))%list
  | Py.Raise _ => trace m
  end.
Proof.
  destruct m as [t [a|e]]; cbn; [|reflexivity].
  now destruct (f a).
Qed.

Lemma outcome_bind {A B : Type} (m : @Run Element A) (f : A -> @Run Element B) :
  outcome (bind m f) =
  match outcome m with
  | Py.Ok a => outcome (f a)
  | Py.Raise e => Py.Raise e
  end.
Proof.
  destruct m as [t [a|e]]; cbn; [|reflexivity].
  now destruct (f a).
Qed.

(** An event of [m ;; f] was emitted by [m], or by [f] after [m]
    returned. *)
Lemma In_trace_bind {A B : Type} (m : @Run Element A)
    (f : A -> @Run Element B) ev :
  In ev (trace (bind m f)) ->
  In ev (trace m) \/ exists a, outcome m = Py.Ok a /\ In ev (trace (f a)).
Proof.
  rewrite trace_bind. destruct (outcome m) as [a|e] eqn:E.
  - rewrite in_app_iff. intros [H|H]; [now left|right; eauto].
  - now left.
Qed.

Lemma bind_lift_ok {A B : Type} (a : A) (f : A -> @Run Element B) :
  bind (lift (Py.Ok a)) f = f a.
Proof. cbn. now destruct (f a). Qed.

Lemma bind_lift_raise {A B : Type} (e : Py.exn) (f : A -> @Run Element B) :
  bind (lift (Py.Raise e)) f = ([], Py.Raise e).
Proof. reflexivity. Qed.

Lemma bind_emit {B : Type} ev (k : @Run Element B) :
  bind (emit ev) (fun _ => k) = (ev :: trace k, outcome k).
Proof. cbn. now destruct k. Qed.

End RunFacts.

(* ===================================================================== *)
(** * Facts about the script *)
(* ===================================================================== *)

Section ScriptFacts.
Context (rt : Runtime).
Implicit Types (ev : Event (Element rt)) (factors : list Z).

(** The loop body reads the first factor and pads the other two with 1. *)
Lemma numbers_in_xi_spec factors :
  numbers_in_xi factors =
  match factors with
  | [] => Py.Raise Py.IndexError
  | n1 :: others => Py.Ok (n1, nth 0 others 1, nth 1 others 1)
  end.
Proof.
  unfold numbers_in_xi. rewrite index_0, index_1, index_2.
  destruct factors as [|a [|b [|c l]]]; try reflexivity.
  rewrite !len_cons. pose proof (len_nonneg l).
  replace (1 <? Py.len l + 1 + 1 + 1) with true
    by (symmetry; apply Z.ltb_lt; lia).
  replace (2 <? Py.len l + 1 + 1 + 1) with true
    by (symmetry; apply Z.ltb_lt; lia).
  reflexivity.
Qed.

Lemma numbers_in_xi_firstn factors :
  numbers_in_xi (firstn 3 factors) = numbers_in_xi factors.
Proof.
  rewrite !numbers_in_xi_spec.
  destruct factors as [|a [|b [|c l]]]; reflexivity.
Qed.

(** One pass through the loop. *)
Lemma refine_loop_cons factors mr element rest :
  refine_loop rt factors mr (element :: rest) =
  match numbers_in_xi factors with
  | Py.Raise e => ([], Py.Raise e)
  | Py.Ok (n1, n2, n3) =>
      match refineElementCubeStandard3d rt mr element n1 n2 n3 with
      | Py.Raise e => ([EvRefine element n1 n2 n3], Py.Raise e)
      | Py.Ok mr' =>
          (EvRefine element n1 n2 n3 :: trace (refine_loop rt factors mr' rest),
           outcome (refine_loop rt factors mr' rest))
      end
  end.
Proof.
  cbn [refine_loop].
  destruct (numbers_in_xi factors) as [[[n1 n2] n3]|e]; [|reflexivity].
  rewrite bind_lift_ok, bind_emit.
  destruct (refineElementCubeStandard3d rt mr element n1 n2 n3) as [mr'|e].
  - now rewrite bind_lift_ok.
  - reflexivity.
Qed.

(** The loop only looks at the first three factors. *)
Lemma refine_loop_firstn factors mr elements :
  refine_loop rt (firstn 3 factors) mr elements =
  refine_loop rt factors mr elements.
Proof.
  revert mr. induction elements as [|element rest IH]; intros mr.
  - reflexivity.
  - rewrite !refine_loop_cons, numbers_in_xi_firstn.
    destruct (numbers_in_xi factors) as [[[n1 n2] n3]|e]; [|reflexivity].
    destruct (refineElementCubeStandard3d rt mr element n1 n2 n3);
      [now rewrite IH|reflexivity].
Qed.

(** Every event of the loop is a refinement call on one of the elements,
    with the counts of the loop body. *)
Lemma refine_loop_events factors mr elements ev :
  In ev (trace (refine_loop rt factors mr elements)) ->
  exists element n1 n2 n3,
    ev = EvRefine element n1 n2 n3 /\ In element elements /\
    numbers_in_xi factors = Py.Ok (n1, n2, n3).
Proof.
  revert mr. induction elements as [|element rest IH]; intros mr.
  - intros [].
  - rewrite refine_loop_cons.
    destruct (numbers_in_xi factors) as [[[n1 n2] n3]|e] eqn:En; [|intros []].
    destruct (refineElementCubeStandard3d rt mr element n1 n2 n3) as [mr'|e].
    + cbn [trace fst]. intros [<-|H].
      * exists element, n1, n2, n3. repeat split. now left.
      * destruct (IH _ H) as (el & m1 & m2 & m3 & -> & Hin & Hn).
        exists el, m1, m2, m3. repeat split; [now right|assumption].
    + cbn [trace fst]. intros [<-|[]].
      exists element, n1, n2, n3. repeat split. now left.
Qed.

(** When the external routine refuses the counts, the first element ends
    the loop. *)
Lemma refine_loop_rejected factors mr element rest n1 n2 n3 :
  rejects_invalid_counts rt ->
  numbers_in_xi factors = Py.Ok (n1, n2, n3) ->
  n1 < 1 \/ n2 < 1 \/ n3 < 1 ->
  refine_loop rt factors mr (element :: rest) =
  ([EvRefine element n1 n2 n3],
   Py.Raise (Py.LibraryError "InvalidRefinementSpecError")).
Proof.
  intros Hrej Hn Hbad. rewrite refine_loop_cons, Hn.
  now rewrite (Hrej mr element n1 n2 n3 Hbad).
Qed.

(** The lookup, dimension by dimension. *)
Lemma _get_mesh_cascade region :
  _get_mesh rt region =
  let m3 := findMeshByDimension rt region 3 in
  let m2 := findMeshByDimension rt region 2 in
  let m1 := findMeshByDimension rt region 1 in
  if 0 <? getSize m3 then ([EvFindMesh 3], Py.Ok m3)
  else if 0 <? getSize m2 then ([EvFindMesh 3; EvFindMesh 2], Py.Ok m2)
  else if 0 <? getSize m1
       then ([EvFindMesh 3; EvFindMesh 2; EvFindMesh 1], Py.Ok m1)
       else ([EvFindMesh 3; EvFindMesh 2; EvFindMesh 1],
             Py.Raise Py.ValueError).
Proof.
  unfold _get_mesh. change (Py.range_down 3 0) with [3; 2; 1].
  cbn [get_mesh_in]. rewrite !bind_emit. cbv zeta.
  destruct (0 <? getSize (findMeshByDimension rt region 3)); [reflexivity|].
  destruct (0 <? getSize (findMeshByDimension rt region 2)); [reflexivity|].
  destruct (0 <? getSize (findMeshByDimension rt region 1)); reflexivity.
Qed.

Lemma _get_mesh_events region ev :
  In ev (trace (_get_mesh rt region)) -> exists d, ev = EvFindMesh d.
Proof.
  rewrite _get_mesh_cascade. cbv zeta.
  repeat match goal with |- context [if ?b then _ else _] => destruct b end;
    cbn [trace fst In]; intuition eauto.
Qed.

(** A mesh the lookup returns has an element to start the loop with. *)
Lemma _get_mesh_nonempty region mesh :
  outcome (_get_mesh rt region) = Py.Ok mesh ->
  exists element rest, mesh_elements mesh = element :: rest.
Proof.
  rewrite _get_mesh_cascade. cbv zeta.
  assert (Hpos : forall m : Mesh (Element rt), (0 <? getSize m) = true ->
            exists element rest, mesh_elements m = element :: rest).
  { intros m H. apply Z.ltb_lt in H. unfold getSize, Py.len in H.
    destruct (mesh_elements m) as [|element rest]; [cbn in H; lia|eauto]. }
  repeat match goal with
         | |- context [if ?b then _ else _] => destruct b eqn:?
         end; cbn [outcome snd]; intros [= <-]; auto.
Qed.

End ScriptFacts.

Ltac in_bind H :=
  let a := fresh "a" in
  let E := fresh "E" in
  apply In_trace_bind in H; destruct H as [H | (a & E & H)].

Tactic Notation "in_bind_as" hyp(H) ident(x) ident(E) :=
  apply In_trace_bind in H; destruct H as [H | (x & E & H)].

Ltac in_emit H :=
  cbn [emit lift ret raise trace fst In] in H;
  repeat match type of H with
         | _ \/ _ => destruct H as [H | H]
         | False => destruct H
         end.

Section RefineFacts.
Context (rt : Runtime).
Implicit Types (ev : Event (Element rt)) (factors : list Z).

(** [_refine] looks meshes up and refines elements, nothing else. *)
Lemma _refine_events region factors ev :
  In ev (trace (_refine rt region factors)) ->
  (exists d, ev = EvFindMesh d) \/
  (exists element n1 n2 n3,
      ev = EvRefine element n1 n2 n3 /\
      numbers_in_xi factors = Py.Ok (n1, n2, n3)).
Proof.
  intros H. unfold _refine in H.
  in_bind H; [in_emit H|].
  in_bind H; [left; eapply _get_mesh_events; eassumption|].
  right. apply refine_loop_events in H.
  destruct H as (element & n1 & n2 & n3 & -> & _ & Hn). eauto 6.
Qed.

(** With counts the external routine refuses, [_refine] cannot return, and
    once it has reached an element it ends with the routine's error. *)
Lemma _refine_rejected region factors n1 n2 n3 :
  rejects_invalid_counts rt ->
  numbers_in_xi factors = Py.Ok (n1, n2, n3) ->
  n1 < 1 \/ n2 < 1 \/ n3 < 1 ->
  (forall refined, outcome (_refine rt region factors) <> Py.Ok refined) /\
  (forall ev, In ev (trace (_refine rt region factors)) ->
              is_refine ev = true ->
              outcome (_refine rt region factors) =
              Py.Raise (Py.LibraryError "InvalidRefinementSpecError")).
Proof.
  intros Hrej Hn Hbad. unfold _refine.
  destruct (MeshRefinement rt region) as [mr|e].
  - rewrite bind_lift_ok, outcome_bind, trace_bind.
    destruct (outcome (_get_mesh rt region)) as [mesh|e] eqn:Em.
    + destruct (_get_mesh_nonempty rt region mesh Em) as (el & rest & ->).
      rewrite (refine_loop_rejected rt factors mr el rest n1 n2 n3 Hrej Hn Hbad).
      split; [discriminate|reflexivity].
    + split; [discriminate|].
      intros ev Hin Href. apply _get_mesh_events in Hin as [d ->].
      discriminate.
  - rewrite bind_lift_raise. split; [discriminate|intros ev []].
Qed.

(** Where each event of [RefineAndExport] comes from. *)
Lemma RefineAndExport_events (a : InitArguments) ev :
  In ev (trace (RefineAndExport rt a)) ->
  ev = EvReadFile (input_zinc_file a) \/
  (exists path, input_exelem_file a = Some path /\ ev = EvReadFile path) \/
  (exists d, ev = EvFindMesh d) \/
  (exists element n1 n2 n3,
      ev = EvRefine element n1 n2 n3 /\
      numbers_in_xi (refine a) = Py.Ok (n1, n2, n3)) \/
  ((ev = EvWriteFile (output_zinc_file a) \/
    ev = EvWriteVtk (output_vtk_file a)) /\
   exists region refined,
     outcome (_refine rt region (refine a)) = Py.Ok refined).
Proof.
  intros H. unfold RefineAndExport in H.
  in_bind H; [in_emit H; subst; now left|].
  in_bind H; [in_emit H|].
  in_bind H.
  { destruct (input_exelem_file a) as [path|]; [|in_emit H].
    in_bind H; in_emit H. subst. right; left. eauto. }
  in_bind H; [in_emit H|].
  in_bind H.
  { apply _refine_events in H. tauto. }
  do 4 right.
  in_bind H; [in_emit H; subst; eauto 6|].
  in_bind H; [in_emit H|].
  in_bind H; [in_emit H; subst; eauto 6|].
  in_emit H.
Qed.

(** With counts the external routine refuses, a [RefineAndExport] that
    reaches an element ends with the routine's error. *)
Lemma RefineAndExport_rejected (ia : InitArguments) n1 n2 n3 ev :
  rejects_invalid_counts rt ->
  numbers_in_xi (refine ia) = Py.Ok (n1, n2, n3) ->
  n1 < 1 \/ n2 < 1 \/ n3 < 1 ->
  In ev (trace (RefineAndExport rt ia)) ->
  is_refine ev = true ->
  outcome (RefineAndExport rt ia) =
  Py.Raise (Py.LibraryError "InvalidRefinementSpecError").
Proof.
  intros Hrej Hn Hbad H Href. unfold RefineAndExport in *.
  in_bind_as H u0 E0; [in_emit H; subst; discriminate|].
  rewrite outcome_bind, E0.
  in_bind_as H region1 E1; [in_emit H|].
  rewrite outcome_bind, E1.
  in_bind_as H region2 E2.
  { destruct (input_exelem_file ia) as [path|]; [|in_emit H].
    in_bind H; in_emit H. subst. discriminate. }
  rewrite outcome_bind, E2.
  in_bind_as H region3 E3; [in_emit H|].
  rewrite outcome_bind, E3.
  destruct (_refine_rejected region3 (refine ia) n1 n2 n3 Hrej Hn Hbad)
    as [Hno Hraise].
  in_bind_as H refined E4.
  - rewrite outcome_bind, (Hraise ev H Href). reflexivity.
  - now apply Hno in E4.
Qed.

End RefineFacts.

(* ===================================================================== *)
(** * Facts about [main] *)
(* ===================================================================== *)

(** What a successful [main_call] put into each keyword argument. *)
Lemma main_call_ok (args : ProgramArguments) (a : InitArguments) :
  main_call args = Py.Ok a ->
  input_zinc_file a = input_ex args /\
  input_exelem_file a = None /\
  match output_ex args with
  | None => default_output_ex (input_ex args)
  | Some p => Py.Ok p
  end = Py.Ok (output_zinc_file a) /\
  match output_vtk args with
  | None => default_output_vtk (input_ex args)
  | Some p => Py.Ok p
  end = Py.Ok (output_vtk_file a) /\
  match refine_factor args with
  | None => Py.Ok [4; 4; 1]
  | Some s => parse_refine_factor s
  end = Py.Ok (refine a).
Proof.
  unfold main_call.
  destruct (match output_ex args with
            | None => default_output_ex (input_ex args)
            | Some p => Py.Ok p
            end) as [oe|e]; [|discriminate].
  destruct (match output_vtk args with
            | None => default_output_vtk (input_ex args)
            | Some p => Py.Ok p
            end) as [ov|e]; [|discriminate].
  destruct (match refine_factor args with
            | None => Py.Ok [4; 4; 1]
            | Some s => parse_refine_factor s
            end) as [factors|e]; [|discriminate].
  intros [= <-]. cbn. repeat split.
Qed.

Section MainFacts.
Context (rt : Runtime).
Implicit Types (ev : Event (Element rt)) (args : ProgramArguments).

Lemma main_missing args :
  path_exists rt (input_ex args) = false -> main rt args = ([], Py.Ok tt).
Proof. unfold main. now intros ->. Qed.

Lemma main_present args :
  path_exists rt (input_ex args) = true ->
  main rt args =
  match main_call args with
  | Py.Ok a => RefineAndExport rt a
  | Py.Raise e => ([], Py.Raise e)
  end.
Proof.
  unfold main. intros ->.
  destruct (main_call args) as [a|e]; [apply bind_lift_ok|reflexivity].
Qed.

(** An event of [main] is an event of the [RefineAndExport] it called. *)
Lemma main_events args ev :
  In ev (trace (main rt args)) ->
  path_exists rt (input_ex args) = true /\
  exists a, main_call args = Py.Ok a /\ main rt args = RefineAndExport rt a /\
            In ev (trace (RefineAndExport rt a)).
Proof.
  destruct (path_exists rt (input_ex args)) eqn:Ex.
  - rewrite (main_present args Ex).
    destruct (main_call args) as [a|e]; [eauto 6|intros []].
  - rewrite (main_missing args Ex). intros [].
Qed.

(** [RefineAndExport] returns only after [_refine] has. *)
Lemma RefineAndExport_ok (ia : InitArguments) (u : unit) :
  outcome (RefineAndExport rt ia) = Py.Ok u ->
  exists region refined,
    outcome (_refine rt region (refine ia)) = Py.Ok refined.
Proof.
  unfold RefineAndExport. rewrite bind_emit. cbn [outcome snd].
  rewrite outcome_bind.
  destruct (outcome (lift (readFile rt (getDefaultRegion rt)
                                    (input_zinc_file ia)))) as [r1|e];
    [|discriminate].
  rewrite outcome_bind.
  match goal with
  | |- match outcome ?m with _ => _ end = _ -> _ =>
      destruct (outcome m) as [r2|e]; [|discriminate]
  end.
  rewrite outcome_bind.
  destruct (outcome (lift (annotate rt r2))) as [r3|e]; [|discriminate].
  rewrite outcome_bind.
  destruct (outcome (_refine rt r3 (refine ia))) as [refined|e] eqn:E;
    [eauto|discriminate].
Qed.

End MainFacts.

(** A count below one among the first three factors is a count below one
    in the loop body. *)
Lemma numbers_in_xi_invalid (factors : list Z) :
  (exists n, In n (firstn 3 factors) /\ n < 1) ->
  exists n1 n2 n3,
    numbers_in_xi factors = Py.Ok (n1, n2, n3) /\
    (n1 < 1 \/ n2 < 1 \/ n3 < 1).
Proof.
  intros (n & Hin & Hn). rewrite numbers_in_xi_spec.
  destruct factors as [|a [|b [|c l]]]; cbn in Hin |- *.
  - destruct Hin.
  - exists a, 1, 1. intuition (subst; auto).
  - exists a, b, 1. intuition (subst; auto).
  - exists a, b, c. intuition (subst; auto).
Qed.

(** The default paths, for file names with no, one, or at most one ['.']. *)
Lemma default_output_ex_one_dot (input : string) :
  Py.count "."%char (PosixPath.basename input) = 1 ->
  default_output_ex input = Py.Ok (Spec.default_output_ex input).
Proof.
  intros H1. unfold default_output_ex, Spec.default_output_ex, Spec.splitext.
  destruct (split_one_sep _ _ H1) as (a & b & Hs & Hab & Ha & Hb).
  cbv zeta. rewrite Hs, index_0, index_1, Hab.
  rewrite (rfind_last_sep "."%char a b Hb).
  replace (Z.of_nat (String.length a) <? 0) with false
    by (symmetry; apply Z.ltb_ge; lia).
  unfold Py.slice_to, Py.slice_from. rewrite Nat2Z.id, take_app, drop_app.
  reflexivity.
Qed.

Lemma default_output_ex_no_dot (input : string) :
  Py.count "."%char (PosixPath.basename input) = 0 ->
  default_output_ex input = Py.Raise Py.IndexError.
Proof.
  intros H0. unfold default_output_ex. cbv zeta.
  now rewrite (split_no_sep _ _ H0), index_0, index_1.
Qed.

Lemma default_output_vtk_at_most_one_dot (input : string) :
  Py.count "."%char (PosixPath.basename input) <= 1 ->
  default_output_vtk input = Py.Ok (Spec.default_output_vtk input).
Proof.
  intros Hle. pose proof (count_nonneg "."%char (PosixPath.basename input)).
  unfold default_output_vtk, Spec.default_output_vtk, Spec.splitext.
  cbv zeta.
  assert (Hc : Py.count "."%char (PosixPath.basename input) = 0 \/
               Py.count "."%char (PosixPath.basename input) = 1) by lia.
  destruct Hc as [H0|H1].
  - rewrite (split_no_sep _ _ H0), index_0, (rfind_no_sep _ _ H0).
    reflexivity.
  - destruct (split_one_sep _ _ H1) as (a & b & Hs & Hab & Ha & Hb).
    rewrite Hs, index_0, Hab, (rfind_last_sep "."%char a b Hb).
    replace (Z.of_nat (String.length a) <? 0) with false
      by (symmetry; apply Z.ltb_ge; lia).
    unfold Py.slice_to. now rewrite Nat2Z.id, take_app.
Qed.

(** The visualization path never fails to derive: its name is the text
    before the first ['.'] of the input's file name. *)
Lemma default_output_vtk_total (input : string) :
  exists stem,
    Py.count "."%char stem = 0 /\
    default_output_vtk input =
    Py.Ok (PosixPath.join (PosixPath.dirname input) (stem ++ "_refined.vtk")).
Proof.
  destruct (split_head "."%char (PosixPath.basename input))
    as (stem & rest & Hs & Hstem & _).
  exists stem. split; [exact Hstem|].
  unfold default_output_vtk. cbv zeta. now rewrite Hs, index_0.
Qed.

(** The specification's engine refuses counts below one. *)
Lemma sample_rejects_invalid_counts :
  rejects_invalid_counts SpecEngine.sample.
Proof.
  intros mr element n1 n2 n3 Hbad. cbn. unfold SpecEngine.refine_element.
  replace ((n1 <? 1) || (n2 <? 1) || (n3 <? 1)) with true; [reflexivity|].
  symmetry. rewrite !orb_true_iff, !Z.ltb_lt. tauto.
Qed.

(* ===================================================================== *)
(** * Worked runs *)
(* ===================================================================== *)

Example split_two : Py.split "."%char "mesh.exf" = ["mesh"; "exf"].
Proof. reflexivity. Qed.

Example split_three : Py.split "."%char "a.b.c" = ["a"; "b"; "c"].
Proof. reflexivity. Qed.

Example split_edges : Py.split "."%char ".a." = [""; "a"; ""].
Proof. reflexivity. Qed.

Example basename_dirname :
  PosixPath.basename "/data/heart/mesh.exf" = "mesh.exf" /\
  PosixPath.dirname "/data/heart/mesh.exf" = "/data/heart" /\
  PosixPath.dirname "/mesh.exf" = "/" /\
  PosixPath.dirname "mesh.exf" = "" /\
  PosixPath.dirname "a//b" = "a".
Proof. repeat split. Qed.

Example join_cases :
  PosixPath.join "/data" "m.ex" = "/data/m.ex" /\
  PosixPath.join "" "m.ex" = "m.ex" /\
  PosixPath.join "/" "m.ex" = "/m.ex".
Proof. repeat split. Qed.

Example range_3_0 : Py.range_down 3 0 = [3; 2; 1].
Proof. reflexivity. Qed.

(** The default run on a one-hexahedron model. *)
Example run_default :
  main SpecEngine.sample (invocation "/data/mesh.exf" None None None) =
  ([EvReadFile "/data/mesh.exf"; EvFindMesh 3; EvRefine 1%nat 4 4 1;
    EvWriteFile "/data/mesh_refined.exf";
    EvWriteVtk "/data/mesh_refined.vtk"], Py.Ok tt).
Proof. reflexivity. Qed.

(** A model without elements: every dimension is tried, then
    [ValueError]. *)
Example run_empty_model :
  main SpecEngine.sample (invocation "/data/empty.exf" (Some "0") None None) =
  ([EvReadFile "/data/empty.exf"; EvFindMesh 3; EvFindMesh 2; EvFindMesh 1],
   Py.Raise Py.ValueError).
Proof. reflexivity. Qed.

(** An empty [-r] value: the loop's first [refine_factor[0]] raises. *)
Example run_empty_factor :
  main SpecEngine.sample (invocation "/data/mesh.exf" (Some "") None None) =
  ([EvReadFile "/data/mesh.exf"; EvFindMesh 3], Py.Raise Py.IndexError).
Proof. reflexivity. Qed.

(** The element's dimension plays no part in the counts: the elements of
    a two-dimensional mesh get the third factor of a three-entry spec. *)
Example run_quads_three_factors :
  main SpecEngine.sample (invocation "/data/quads.exf" (Some "222") None None) =
  ([EvReadFile "/data/quads.exf"; EvFindMesh 3; EvFindMesh 2;
    EvRefine 1%nat 2 2 2; EvRefine 2%nat 2 2 2;
    EvWriteFile "/data/quads_refined.exf";
    EvWriteVtk "/data/quads_refined.vtk"], Py.Ok tt).
Proof. reflexivity. Qed.

(* ===================================================================== *)
(** * The claims *)
(* ===================================================================== *)

(** C1 (the code departs from the claim).  The claim: with [--exelem] on
    the command line the supplementary file is read into the region
    before refinement.  [main] passes [input_exelem_file=None] whatever
    the option holds, so: (1) no run of [main] reads any file but
    [input_ex]; (2) with [--exelem /data/mesh.exelem] the run is the run
    without the option, and the element 7 of the supplementary file is
    never refined; (3) [RefineAndExport] itself, given the file, does
    read it and refines its element. *)
Theorem exelem_option_is_ignored :
  (forall (rt : Runtime) (args : ProgramArguments) (path : string),
      In (EvReadFile path) (trace (main rt args)) -> path = input_ex args) /\
  main SpecEngine.sample
       {| input_ex := "/data/mesh.exf";
          exelem := Some "/data/mesh.exelem";
          refine_factor := None; output_ex := None; output_vtk := None |} =
  ([EvReadFile "/data/mesh.exf"; EvFindMesh 3; EvRefine 1%nat 4 4 1;
    EvWriteFile "/data/mesh_refined.exf";
    EvWriteVtk "/data/mesh_refined.vtk"], Py.Ok tt) /\
  RefineAndExport SpecEngine.sample
       {| input_zinc_file := "/data/mesh.exf";
          input_exelem_file := Some "/data/mesh.exelem";
          refine := [4; 4; 1];
          output_zinc_file := "/data/mesh_refined.exf";
          output_vtk_file := "/data/mesh_refined.vtk" |} =
  ([EvReadFile "/data/mesh.exf"; EvReadFile "/data/mesh.exelem";
    EvFindMesh 3; EvRefine 1%nat 4 4 1; EvRefine 7%nat 4 4 1;
    EvWriteFile "/data/mesh_refined.exf";
    EvWriteVtk "/data/mesh_refined.vtk"], Py.Ok tt).
Proof.
  split; [|split; reflexivity].
  intros rt args path H.
  apply main_events in H as (_ & a & Hcall & _ & H).
  apply main_call_ok in Hcall as (Hin & Hex & _).
  apply RefineAndExport_events in H.
  destruct H as [H|[(p & Hp & _)|[(d & H)|[(e & n1 & n2 & n3 & H & _)|[[H|H] _]]]]];
    try discriminate.
  - injection H as ->. exact Hin.
  - rewrite Hex in Hp. discriminate.
Qed.

(** C2.  When [input_ex] names a path that does not exist, the program
    refines nothing, writes nothing, raises nothing and returns: the run
    has no event at all and ends normally. *)
Theorem missing_input_is_silent_noop (rt : Runtime) (args : ProgramArguments) :
  path_exists rt (input_ex args) = false ->
  main rt args = ([], Py.Ok tt).
Proof. apply main_missing. Qed.

(** A path the sample directory does not hold. *)
Lemma missing_input_is_silent_noop_witness :
  path_exists SpecEngine.sample "/data/nofile.exf" = false /\
  main SpecEngine.sample (invocation "/data/nofile.exf" (Some "2") None None) =
  ([], Py.Ok tt).
Proof.
  split; [reflexivity|].
  apply (missing_input_is_silent_noop SpecEngine.sample
           (invocation "/data/nofile.exf" (Some "2") None None)).
  reflexivity.
Defined.

(** C3 (as stated, false): a spec containing a zero does not always end
    in [InvalidRefinementSpecError] without output.  Even with an engine
    that refuses every count below one, the zero of ["1110"] is the
    fourth factor, which the loop never reads: the run succeeds and
    writes both files. *)
Lemma zero_in_spec_counterexample :
  parse_refine_factor "1110" = Py.Ok [1; 1; 1; 0] /\
  In 0 [1; 1; 1; 0] /\
  rejects_invalid_counts SpecEngine.sample /\
  main SpecEngine.sample (invocation "/data/mesh.exf" (Some "1110") None None) =
  ([EvReadFile "/data/mesh.exf"; EvFindMesh 3; EvRefine 1%nat 1 1 1;
    EvWriteFile "/data/mesh_refined.exf";
    EvWriteVtk "/data/mesh_refined.vtk"], Py.Ok tt).
Proof.
  repeat split; [now right; right; right; left|].
  exact sample_rejects_invalid_counts.
Qed.

(** C3 (amended).  The script validates nothing itself; it hands the
    counts to the external routine.  If that routine refuses counts below
    one, then for every spec with a count below one among its first three
    factors: no output file is written; a run whose input exists fails;
    and a run that reaches an element fails with
    [InvalidRefinementSpecError]. *)
Theorem invalid_count_no_output (rt : Runtime) (args : ProgramArguments)
    (a : InitArguments) :
  rejects_invalid_counts rt ->
  main_call args = Py.Ok a ->
  (exists n, In n (firstn 3 (refine a)) /\ n < 1) ->
  (forall ev, In ev (trace (main rt args)) -> is_write ev = false) /\
  (path_exists rt (input_ex args) = true ->
   exists e, outcome (main rt args) = Py.Raise e) /\
  (forall ev, In ev (trace (main rt args)) -> is_refine ev = true ->
     outcome (main rt args) =
     Py.Raise (Py.LibraryError "InvalidRefinementSpecError")).
Proof.
  intros Hrej Hcall Hzero.
  destruct (numbers_in_xi_invalid _ Hzero) as (n1 & n2 & n3 & Hn & Hbad).
  assert (Hno : forall region refined,
             outcome (_refine rt region (refine a)) <> Py.Ok refined).
  { intros region. apply (_refine_rejected rt region _ n1 n2 n3 Hrej Hn Hbad). }
  repeat split.
  - intros ev H.
    apply main_events in H as (_ & a' & Hcall' & _ & H).
    rewrite Hcall in Hcall'. injection Hcall' as <-.
    apply RefineAndExport_events in H.
    destruct H as [->|[(p & _ & ->)|[(d & ->)|[(e & m1 & m2 & m3 & -> & _)|
                  [_ (region & refined & Hok)]]]]]; try reflexivity.
    now apply Hno in Hok.
  - intros Ex. rewrite (main_present rt args Ex), Hcall.
    destruct (outcome (RefineAndExport rt a)) as [[]|e] eqn:E; [|eauto].
    apply RefineAndExport_ok in E as (region & refined & Hok).
    now apply Hno in Hok.
  - intros ev H Href.
    apply main_events in H as (_ & a' & Hcall' & -> & H).
    rewrite Hcall in Hcall'. injection Hcall' as <-.
    exact (RefineAndExport_rejected rt a n1 n2 n3 ev Hrej Hn Hbad H Href).
Qed.

(** The spec ["440"] on the one-hexahedron model. *)
Lemma invalid_count_no_output_witness :
  main_call (invocation "/data/mesh.exf" (Some "440") None None) =
    Py.Ok {| input_zinc_file := "/data/mesh.exf";
             input_exelem_file := None;
             refine := [4; 4; 0];
             output_zinc_file := "/data/mesh_refined.exf";
             output_vtk_file := "/data/mesh_refined.vtk" |} /\
  outcome (main SpecEngine.sample
             (invocation "/data/mesh.exf" (Some "440") None None)) =
    Py.Raise (Py.LibraryError "InvalidRefinementSpecError").
Proof.
  split; [reflexivity|].
  refine (proj2 (proj2 (invalid_count_no_output SpecEngine.sample
            (invocation "/data/mesh.exf" (Some "440") None None) _
            sample_rejects_invalid_counts eq_refl _))
          (EvRefine 1%nat 4 4 0) _ eq_refl).
  - exists 0. split; [do 2 right; now left|lia].
  - do 2 right. left. reflexivity.
Defined.

(** C4.  The dominant-mesh lookup tries the dimensions 3, 2, 1 in that
    order and returns the first mesh with at least one element: when it
    returns the mesh of dimension [d], every higher dimension was empty
    and exactly the dimensions from 3 down to [d] were looked up; when no
    dimension has elements it raises [ValueError] after trying all
    three. *)
Theorem dominant_mesh_lookup (rt : Runtime) (region : Region rt) :
  match outcome (_get_mesh rt region) with
  | Py.Ok mesh =>
      exists d, In d [3; 2; 1] /\
        mesh = findMeshByDimension rt region d /\
        0 < getSize mesh /\
        (forall d', In d' [3; 2; 1] -> d < d' ->
                    getSize (findMeshByDimension rt region d') = 0) /\
        trace (_get_mesh rt region) =
        map (fun k => EvFindMesh k) (Py.range_down 3 (d - 1))
  | Py.Raise e =>
      e = Py.ValueError /\
      (forall d, In d [3; 2; 1] ->
                 getSize (findMeshByDimension rt region d) = 0) /\
      trace (_get_mesh rt region) =
      [EvFindMesh 3; EvFindMesh 2; EvFindMesh 1]
  end.
Proof.
  assert (Hzero : forall m : Mesh (Element rt),
             (0 <? getSize m) = false -> getSize m = 0).
  { intros m H. apply Z.ltb_ge in H.
    pose proof (len_nonneg (mesh_elements m)). unfold getSize in *. lia. }
  rewrite _get_mesh_cascade. cbv zeta.
  destruct (0 <? getSize (findMeshByDimension rt region 3)) eqn:E3.
  { cbn [outcome snd trace fst]. exists 3. apply Z.ltb_lt in E3.
    repeat split; auto; [cbn; tauto|].
    intros d' [<-|[<-|[<-|[]]]]; lia. }
  apply Hzero in E3.
  destruct (0 <? getSize (findMeshByDimension rt region 2)) eqn:E2.
  { cbn [outcome snd trace fst]. exists 2. apply Z.ltb_lt in E2.
    repeat split; auto; [cbn; tauto|].
    intros d' [<-|[<-|[<-|[]]]]; auto; lia. }
  apply Hzero in E2.
  destruct (0 <? getSize (findMeshByDimension rt region 1)) eqn:E1.
  { cbn [outcome snd trace fst]. exists 1. apply Z.ltb_lt in E1.
    repeat split; auto; [cbn; tauto|].
    intros d' [<-|[<-|[<-|[]]]]; auto; lia. }
  apply Hzero in E1.
  cbn [outcome snd trace fst]. repeat split.
  intros d [<-|[<-|[<-|[]]]]; assumption.
Qed.

(** C5.  When [-r] is omitted the refinement factors are [[4, 4, 1]]:
    that list is what [main] passes on, and every element a run refines
    is refined with the counts 4, 4 and 1. *)
Theorem default_refine_factor (rt : Runtime) (args : ProgramArguments) :
  refine_factor args = None ->
  (forall a, main_call args = Py.Ok a -> refine a = [4; 4; 1]) /\
  (forall element n1 n2 n3,
      In (EvRefine element n1 n2 n3) (trace (main rt args)) ->
      (n1, n2, n3) = (4, 4, 1)).
Proof.
  intros Hr.
  assert (Hdef : forall a, main_call args = Py.Ok a -> refine a = [4; 4; 1]).
  { intros a Hcall. apply main_call_ok in Hcall as (_ & _ & _ & _ & Hf).
    rewrite Hr in Hf. now injection Hf as <-. }
  split; [exact Hdef|].
  intros element n1 n2 n3 H.
  apply main_events in H as (_ & a & Hcall & _ & H).
  apply RefineAndExport_events in H.
  destruct H as [H|[(p & _ & H)|[(d & H)|[(e & m1 & m2 & m3 & H & Hn)|[[H|H] _]]]]];
    try discriminate.
  injection H as -> -> -> ->.
  rewrite (Hdef a Hcall) in Hn. now injection Hn as <- <- <-.
Qed.

(** The two-quadrilateral model without [-r]. *)
Lemma default_refine_factor_witness :
  refine_factor (invocation "/data/quads.exf" None None None) = None /\
  forall element n1 n2 n3,
    In (EvRefine element n1 n2 n3)
       (trace (main SpecEngine.sample
                 (invocation "/data/quads.exf" None None None))) ->
    (n1, n2, n3) = (4, 4, 1).
Proof.
  split; [reflexivity|].
  apply (default_refine_factor SpecEngine.sample
           (invocation "/data/quads.exf" None None None)).
  reflexivity.
Defined.

(** C6.  For every element the loop hands to the refinement routine, the
    counts come from the spec: [n1] is its first factor, [n2] its second
    and [n3] its third, an axis for which the spec holds no factor getting
    1. *)
Theorem counts_taken_from_spec (rt : Runtime) (a : InitArguments)
    (element : Element rt) (n1 n2 n3 : Z) :
  In (EvRefine element n1 n2 n3) (trace (RefineAndExport rt a)) ->
  nth_error (refine a) 0 = Some n1 /\
  n2 = nth 1 (refine a) 1 /\
  n3 = nth 2 (refine a) 1.
Proof.
  intros H. apply RefineAndExport_events in H.
  destruct H as [H|[(p & _ & H)|[(d & H)|[(e & m1 & m2 & m3 & H & Hn)|[[H|H] _]]]]];
    try discriminate.
  injection H as -> -> -> ->.
  rewrite numbers_in_xi_spec in Hn.
  destruct (refine a) as [|f1 others]; [discriminate|].
  injection Hn as <- <- <-. repeat split.
Qed.

(** The second quadrilateral under the two-entry spec [[3, 5]]. *)
Lemma counts_taken_from_spec_witness :
  In (EvRefine 2%nat 3 5 1)
     (trace (RefineAndExport SpecEngine.sample
               {| input_zinc_file := "/data/quads.exf";
                  input_exelem_file := None;
                  refine := [3; 5];
                  output_zinc_file := "/data/out.exf";
                  output_vtk_file := "/data/out.vtk" |})) /\
  nth_error [3; 5] 0 = Some 3 /\ 5 = nth 1 [3; 5] 1 /\ 1 = nth 2 [3; 5] 1.
Proof.
  assert (H : In (EvRefine 2%nat 3 5 1)
     (trace (RefineAndExport SpecEngine.sample
               {| input_zinc_file := "/data/quads.exf";
                  input_exelem_file := None;
                  refine := [3; 5];
                  output_zinc_file := "/data/out.exf";
                  output_vtk_file := "/data/out.vtk" |})))
    by (do 4 right; left; reflexivity).
  split; [exact H|].
  exact (counts_taken_from_spec SpecEngine.sample _ 2%nat 3 5 1 H).
Defined.

(** C7 (as stated, false): with [-oe] omitted the native output path is
    not always the input's file name with ["_refined"] inserted before
    its extension.  For ["/data/a.b.c"] the run writes
    ["/data/a_refined.b"], not ["/data/a.b_refined.c"]; for a file name
    without ['.'] there is no path at all. *)
Lemma default_output_ex_counterexample :
  output_ex (invocation "/data/a.b.c" None None None) = None /\
  Spec.default_output_ex "/data/a.b.c" = "/data/a.b_refined.c" /\
  default_output_ex "/data/a.b.c" = Py.Ok "/data/a_refined.b" /\
  main SpecEngine.sample (invocation "/data/a.b.c" None None None) =
  ([EvReadFile "/data/a.b.c"; EvFindMesh 3; EvRefine 1%nat 4 4 1;
    EvWriteFile "/data/a_refined.b"; EvWriteVtk "/data/a_refined.vtk"],
   Py.Ok tt) /\
  default_output_ex "/data/mesh" = Py.Raise Py.IndexError.
Proof. repeat split. Qed.

(** C7 (amended).  With [-oe] omitted and an input file name that holds
    exactly one ['.'], the native output path is the input's directory
    joined with the file name with ["_refined"] inserted before its
    extension: the derivation succeeds with that path, [main] passes it
    on, and it is the only native file a run writes. *)
Theorem default_output_ex_one_extension (args : ProgramArguments) :
  output_ex args = None ->
  Py.count "."%char (PosixPath.basename (input_ex args)) = 1 ->
  default_output_ex (input_ex args) =
    Py.Ok (Spec.default_output_ex (input_ex args)) /\
  (forall a, main_call args = Py.Ok a ->
             output_zinc_file a = Spec.default_output_ex (input_ex args)) /\
  (forall (rt : Runtime) (path : string),
      In (EvWriteFile path) (trace (main rt args)) ->
      path = Spec.default_output_ex (input_ex args)).
Proof.
  intros Hoe H1.
  pose proof (default_output_ex_one_dot (input_ex args) H1) as Hd.
  assert (Ha : forall a, main_call args = Py.Ok a ->
             output_zinc_file a = Spec.default_output_ex (input_ex args)).
  { intros a Hcall. apply main_call_ok in Hcall as (_ & _ & Ho & _).
    rewrite Hoe, Hd in Ho. now injection Ho as <-. }
  repeat split; [exact Hd|exact Ha|].
  intros rt path H.
  apply main_events in H as (_ & a & Hcall & _ & H).
  apply RefineAndExport_events in H.
  destruct H as [H|[(p & _ & H)|[(d & H)|[(e & m1 & m2 & m3 & H & _)|[[H|H] _]]]]];
    try discriminate.
  injection H as ->. exact (Ha a Hcall).
Qed.

(** The input ["/data/mesh.exf"]. *)
Lemma default_output_ex_one_extension_witness :
  Py.count "."%char (PosixPath.basename "/data/mesh.exf") = 1 /\
  default_output_ex "/data/mesh.exf" = Py.Ok "/data/mesh_refined.exf".
Proof.
  split; [reflexivity|].
  exact (proj1 (default_output_ex_one_extension
                  (invocation "/data/mesh.exf" None None None)
                  eq_refl eq_refl)).
Defined.

(** C8 (as stated, false): with [-ov] omitted the visualization path is
    not always the input's base name followed by ["_refined.vtk"].  For
    ["/data/a.b.c"] the run writes ["/data/a_refined.vtk"], which is
    neither the name without its extension followed by ["_refined.vtk"]
    nor the whole file name followed by it. *)
Lemma default_output_vtk_counterexample :
  output_vtk (invocation "/data/a.b.c" None None None) = None /\
  Spec.default_output_vtk "/data/a.b.c" = "/data/a.b_refined.vtk" /\
  Spec.default_output_vtk_full_name "/data/a.b.c" = "/data/a.b.c_refined.vtk" /\
  default_output_vtk "/data/a.b.c" = Py.Ok "/data/a_refined.vtk" /\
  In (EvWriteVtk "/data/a_refined.vtk")
     (trace (main SpecEngine.sample
               (invocation "/data/a.b.c" None None None))).
Proof. repeat split. do 4 right. left. reflexivity. Qed.

(** C8 (amended).  With [-ov] omitted and an input file name that holds
    at most one ['.'], the visualization path is the input's directory
    joined with the file name without its extension followed by
    ["_refined.vtk"]: the derivation succeeds with that path, [main]
    passes it on, and it is the only visualization file a run writes. *)
Theorem default_output_vtk_one_extension (args : ProgramArguments) :
  output_vtk args = None ->
  Py.count "."%char (PosixPath.basename (input_ex args)) <= 1 ->
  default_output_vtk (input_ex args) =
    Py.Ok (Spec.default_output_vtk (input_ex args)) /\
  (forall a, main_call args = Py.Ok a ->
             output_vtk_file a = Spec.default_output_vtk (input_ex args)) /\
  (forall (rt : Runtime) (path : string),
      In (EvWriteVtk path) (trace (main rt args)) ->
      path = Spec.default_output_vtk (input_ex args)).
Proof.
  intros Hov Hle.
  pose proof (default_output_vtk_at_most_one_dot (input_ex args) Hle) as Hd.
  assert (Ha : forall a, main_call args = Py.Ok a ->
             output_vtk_file a = Spec.default_output_vtk (input_ex args)).
  { intros a Hcall. apply main_call_ok in Hcall as (_ & _ & _ & Ho & _).
    rewrite Hov, Hd in Ho. now injection Ho as <-. }
  repeat split; [exact Hd|exact Ha|].
  intros rt path H.
  apply main_events in H as (_ & a & Hcall & _ & H).
  apply RefineAndExport_events in H.
  destruct H as [H|[(p & _ & H)|[(d & H)|[(e & m1 & m2 & m3 & H & _)|[[H|H] _]]]]];
    try discriminate.
  injection H as ->. exact (Ha a Hcall).
Qed.

(** The input ["/data/mesh.exf"]. *)
Lemma default_output_vtk_one_extension_witness :
  Py.count "."%char (PosixPath.basename "/data/mesh.exf") <= 1 /\
  default_output_vtk "/data/mesh.exf" = Py.Ok "/data/mesh_refined.vtk".
Proof.
  split; [discriminate|].
  refine (proj1 (default_output_vtk_one_extension
                   (invocation "/data/mesh.exf" None None None) _ _));
    [reflexivity|discriminate].
Defined.

(** C9.  A supplied [-r] value is parsed one character at a time: every
    factor is [int] of a single character, hence a digit from 0 to 9; a
    value made of decimal digits always parses; a value with any other
    character raises [ValueError] (so ["4,4,1"] is refused and ["12"] is
    the two factors 1 and 2), and in [main] it does so before anything is
    loaded; and the refinement loop behaves the same on the factors and
    on the first three of them. *)
Theorem refine_factor_parsed_per_character :
  (forall s factors,
      parse_refine_factor s = Py.Ok factors ->
      Forall2 (fun c n => Py.int_of_char c = Py.Ok n)
              (list_ascii_of_string s) factors /\
      Forall (fun n => 0 <= n <= 9) factors) /\
  (forall s,
      Forall (fun c => Py.is_decimal c = true) (list_ascii_of_string s) ->
      exists factors, parse_refine_factor s = Py.Ok factors) /\
  (forall s,
      Exists (fun c => Py.is_decimal c = false) (list_ascii_of_string s) ->
      parse_refine_factor s = Py.Raise Py.ValueError) /\
  (forall (rt : Runtime) input s oe ov,
      path_exists rt input = true ->
      Exists (fun c => Py.is_decimal c = false) (list_ascii_of_string s) ->
      main rt (invocation input (Some s) (Some oe) (Some ov)) =
      ([], Py.Raise Py.ValueError)) /\
  parse_refine_factor "4,4,1" = Py.Raise Py.ValueError /\
  parse_refine_factor "12" = Py.Ok [1; 2] /\
  (forall (rt : Runtime) factors mr elements,
      refine_loop rt factors mr elements =
      refine_loop rt (firstn 3 factors) mr elements).
Proof.
  assert (Hraise : forall s,
      Exists (fun c => Py.is_decimal c = false) (list_ascii_of_string s) ->
      parse_refine_factor s = Py.Raise Py.ValueError).
  { intros s H. unfold parse_refine_factor.
    apply comprehension_raises.
    - intros c e. unfold Py.int_of_char.
      destruct (Py.is_decimal c); [discriminate|now intros [= <-]].
    - eapply Exists_impl; [|exact H].
      intros c Hc. unfold Py.int_of_char. now rewrite Hc. }
  repeat split.
  - now apply comprehension_all_ok.
  - apply comprehension_all_ok in H.
    induction H as [|c n cs ns Hc _ IH]; constructor; [|exact IH].
    exact (int_of_char_range c n Hc).
  - intros s H. unfold parse_refine_factor. apply comprehension_total.
    eapply Forall_impl; [|exact H].
    intros c Hc. unfold Py.int_of_char. now rewrite Hc.
  - exact Hraise.
  - intros rt input s oe ov Ex H.
    rewrite main_present by exact Ex.
    unfold main_call. cbn. now rewrite (Hraise s H).
  - intros rt factors mr elements. symmetry. apply refine_loop_firstn.
Qed.

(** C10 (as stated, false): with [-oe] omitted and no ['.'] in the input's
    file name, a run does not always raise [IndexError].  When the path
    does not exist the run ends normally, having done nothing. *)
Lemma no_dot_counterexample :
  output_ex (invocation "/data/nofile" None None None) = None /\
  Py.count "."%char (PosixPath.basename "/data/nofile") = 0 /\
  main SpecEngine.sample (invocation "/data/nofile" None None None) =
  ([], Py.Ok tt).
Proof. repeat split. Qed.

(** C10 (amended).  With [-oe] omitted, an input path that exists and no
    ['.'] in its file name, the derivation of the default output path
    raises [IndexError], and the run ends with it before any file is
    read, any mesh looked up or any element refined. *)
Theorem no_dot_raises_IndexError (rt : Runtime) (args : ProgramArguments) :
  path_exists rt (input_ex args) = true ->
  output_ex args = None ->
  Py.count "."%char (PosixPath.basename (input_ex args)) = 0 ->
  default_output_ex (input_ex args) = Py.Raise Py.IndexError /\
  main rt args = ([], Py.Raise Py.IndexError).
Proof.
  intros Ex Hoe H0.
  pose proof (default_output_ex_no_dot (input_ex args) H0) as Hd.
  split; [exact Hd|].
  rewrite (main_present rt args Ex). unfold main_call.
  now rewrite Hoe, Hd.
Qed.

(** The existing input ["/data/mesh"]. *)
Lemma no_dot_raises_IndexError_witness :
  path_exists SpecEngine.sample "/data/mesh" = true /\
  main SpecEngine.sample (invocation "/data/mesh" None None None) =
  ([], Py.Raise Py.IndexError).
Proof.
  split; [reflexivity|].
  refine (proj2 (no_dot_raises_IndexError SpecEngine.sample
                   (invocation "/data/mesh" None None None) _ _ _));
    reflexivity.
Defined.

(* ===================================================================== *)
(** * Further facts: the shape of a run *)
(* ===================================================================== *)

Section RunShape.
Context (rt : Runtime).
Implicit Types (ev : Event (Element rt)) (factors : list Z).

Lemma bind_ok {A B : Type} (t : list (Event (Element rt))) (x : A)
    (f : A -> @Run (Element rt) B) :
  bind (t, Py.Ok x) f = ((t ++ trace (f x))%list, outcome (f x)).
Proof. cbn. now destruct (f x). Qed.

Lemma bind_raise {A B : Type} (t : list (Event (Element rt))) (e : Py.exn)
    (f : A -> @Run (Element rt) B) :
  bind (t, Py.Raise e) f = (t, Py.Raise e).
Proof. reflexivity. Qed.

(** The loop's events are refinement calls on a prefix of the elements. *)
Lemma refine_loop_prefix factors n1 n2 n3 mr elements :
  numbers_in_xi factors = Py.Ok (n1, n2, n3) ->
  exists k,
    (k <= List.length elements)%nat /\
    trace (refine_loop rt factors mr elements) =
    map (fun element => EvRefine element n1 n2 n3) (firstn k elements) /\
    match outcome (refine_loop rt factors mr elements) with
    | Py.Ok _ => k = List.length elements
    | Py.Raise _ => (0 < k)%nat
    end.
Proof.
  intros Hn. revert mr.
  induction elements as [|element rest IH]; intros mr.
  - exists 0%nat. cbn. repeat split. lia.
  - rewrite refine_loop_cons, Hn.
    destruct (refineElementCubeStandard3d rt mr element n1 n2 n3) as [mr'|e].
    + destruct (IH mr') as (k & Hk & Ht & Ho).
      exists (S k). cbn [trace outcome fst snd List.length firstn map].
      rewrite Ht. repeat split; [lia|].
      destruct (outcome (refine_loop rt factors mr' rest)); lia.
    + exists 1%nat. cbn. repeat split; lia.
Qed.

(** When the lookup returns, it returns the mesh of the highest dimension
    that has elements. *)
Lemma _get_mesh_ok_inv region mesh :
  outcome (_get_mesh rt region) = Py.Ok mesh ->
  exists d, In d [3; 2; 1] /\
    mesh = findMeshByDimension rt region d /\
    0 < getSize mesh /\
    forall d', In d' [3; 2; 1] -> d < d' ->
               getSize (findMeshByDimension rt region d') = 0.
Proof.
  assert (Hzero : forall m : Mesh (Element rt),
             (0 <? getSize m) = false -> getSize m = 0).
  { intros m H. apply Z.ltb_ge in H.
    pose proof (len_nonneg (mesh_elements m)). unfold getSize in *. lia. }
  rewrite _get_mesh_cascade. cbv zeta.
  destruct (0 <? getSize (findMeshByDimension rt region 3)) eqn:E3.
  { cbn [outcome snd]. intros [= <-]. exists 3. apply Z.ltb_lt in E3.
    repeat split; auto; [cbn; tauto|].
    intros d' [<-|[<-|[<-|[]]]]; lia. }
  apply Hzero in E3.
  destruct (0 <? getSize (findMeshByDimension rt region 2)) eqn:E2.
  { cbn [outcome snd]. intros [= <-]. exists 2. apply Z.ltb_lt in E2.
    repeat split; auto; [cbn; tauto|].
    intros d' [<-|[<-|[<-|[]]]]; auto; lia. }
  apply Hzero in E2.
  destruct (0 <? getSize (findMeshByDimension rt region 1)) eqn:E1.
  { cbn [outcome snd]. intros [= <-]. exists 1. apply Z.ltb_lt in E1.
    repeat split; auto; [cbn; tauto|].
    intros d' [<-|[<-|[<-|[]]]]; auto; lia. }
  discriminate.
Qed.

(** A [_refine] that returns looked a mesh up and refined all of it. *)
Lemma _refine_ok_inv region factors refined :
  outcome (_refine rt region factors) = Py.Ok refined ->
  exists mesh n1 n2 n3,
    numbers_in_xi factors = Py.Ok (n1, n2, n3) /\
    outcome (_get_mesh rt region) = Py.Ok mesh /\
    trace (_refine rt region factors) =
    (trace (_get_mesh rt region) ++
     map (fun element => EvRefine element n1 n2 n3) (mesh_elements mesh))%list.
Proof.
  unfold _refine.
  destruct (MeshRefinement rt region) as [mr|e]; [|discriminate].
  rewrite bind_lift_ok, outcome_bind, trace_bind.
  destruct (outcome (_get_mesh rt region)) as [mesh|e] eqn:Em; [|discriminate].
  destruct (_get_mesh_nonempty rt region mesh Em) as (el & rest & Hel).
  intros Hok. exists mesh.
  destruct (numbers_in_xi factors) as [[[n1 n2] n3]|e] eqn:Hn.
  - exists n1, n2, n3. repeat split.
    destruct (refine_loop_prefix factors n1 n2 n3 mr (mesh_elements mesh) Hn)
      as (k & _ & Ht & Ho).
    rewrite Hok in Ho. subst k. now rewrite Ht, firstn_all.
  - rewrite Hel, refine_loop_cons, Hn in Hok. discriminate.
Qed.

End RunShape.

Section RunTheorems.
Context (rt : Runtime).
Implicit Types (ev : Event (Element rt)) (factors : list Z).

(** How far [__init__] gets: it fails while loading, or it reaches
    [_refine] on the region it loaded and then ends in one of three ways. *)
Lemma RefineAndExport_split (ia : InitArguments) :
  let first := @EvReadFile (Element rt) (input_zinc_file ia) in
  let reads :=
    first :: match input_exelem_file ia with
             | Some path => [EvReadFile path]
             | None => []
             end in
  (exists e t, (t = [first] \/ t = reads) /\
               RefineAndExport rt ia = (t, Py.Raise e)) \/
  (exists r1 r2 region,
      readFile rt (getDefaultRegion rt) (input_zinc_file ia) = Py.Ok r1 /\
      match input_exelem_file ia with
      | Some path => readFile rt r1 path = Py.Ok r2
      | None => r2 = r1
      end /\
      annotate rt r2 = Py.Ok region /\
      RefineAndExport rt ia =
      match _refine rt region (refine ia) with
      | (t, Py.Raise e) => ((reads ++ t)%list, Py.Raise e)
      | (t, Py.Ok refined) =>
          match writeFile rt refined (output_zinc_file ia) with
          | Py.Raise e =>
              ((reads ++ t ++ [EvWriteFile (output_zinc_file ia)])%list,
               Py.Raise e)
          | Py.Ok _ =>
              ((reads ++ t ++ [EvWriteFile (output_zinc_file ia);
                               EvWriteVtk (output_vtk_file ia)])%list,
               exportVtk rt refined "Stomach Scaffold" (output_vtk_file ia))
          end
      end).
Proof.
  cbv zeta.
  rewrite (surjective_pairing (RefineAndExport rt ia)).
  change (fst (RefineAndExport rt ia)) with (trace (RefineAndExport rt ia)).
  change (snd (RefineAndExport rt ia)) with (outcome (RefineAndExport rt ia)).
  unfold RefineAndExport.
  rewrite trace_bind, outcome_bind. cbn [emit trace outcome fst snd].
  rewrite trace_bind, outcome_bind. cbn [lift trace outcome fst snd].
  destruct (readFile rt (getDefaultRegion rt) (input_zinc_file ia))
    as [r1|e].
  2:{ left. exists e, [EvReadFile (input_zinc_file ia)]. split; [now left|].
      reflexivity. }
  assert (Hex : exists t r2o,
     match input_exelem_file ia with
     | Some path => (emit (EvReadFile path);;; lift (readFile rt r1 path))%run
     | None => ret r1
     end = (t, r2o) /\
     (match r2o with
      | Py.Ok r2 =>
          t = match input_exelem_file ia with
              | Some path => [@EvReadFile (Element rt) path]
              | None => []
              end /\
          match input_exelem_file ia with
          | Some path => readFile rt r1 path = Py.Ok r2
          | None => r2 = r1
          end
      | Py.Raise _ => exists path, input_exelem_file ia = Some path /\
                                   t = [@EvReadFile (Element rt) path]
      end)).
  { destruct (input_exelem_file ia) as [path|].
    - rewrite bind_emit. cbn [lift trace outcome fst snd].
      exists [EvReadFile path], (readFile rt r1 path). split; [reflexivity|].
      destruct (readFile rt r1 path); eauto.
    - exists [], (Py.Ok r1). repeat split. }
  destruct Hex as (t2 & r2o & -> & Ht2).
  rewrite trace_bind, outcome_bind. cbn [trace outcome fst snd].
  destruct r2o as [r2|e].
  2:{ destruct Ht2 as (path & Hp & ->). left. rewrite Hp.
      exists e, [EvReadFile (input_zinc_file ia); EvReadFile path].
      split; [now right|reflexivity]. }
  destruct Ht2 as [Ht2 Hr2]. rewrite <- Ht2.
  rewrite trace_bind, outcome_bind. cbn [lift trace outcome fst snd].
  destruct (annotate rt r2) as [r3|e] eqn:Ea.
  2:{ left. exists e, (EvReadFile (input_zinc_file ia) :: t2).
      split; [now right|]. cbn. now rewrite app_nil_r. }
  right. exists r1, r2, r3.
  split; [reflexivity|]. split; [exact Hr2|]. split; [exact Ea|].
  destruct (_refine rt r3 (refine ia)) as [t [refined|e]];
    rewrite trace_bind, outcome_bind; cbn [trace outcome fst snd].
  2:{ reflexivity. }
  rewrite trace_bind, outcome_bind. cbn [emit trace outcome fst snd].
  rewrite trace_bind, outcome_bind. cbn [lift trace outcome fst snd].
  destruct (writeFile rt refined (output_zinc_file ia)) as [u|e].
  2:{ reflexivity. }
  rewrite trace_bind, outcome_bind. cbn [emit lift trace outcome fst snd].
  cbn. rewrite ?app_nil_r. reflexivity.
Qed.

(** X1.  A [RefineAndExport] that returns has, in this order: read the
    input file (and the supplementary file when given one), looked the
    dominant mesh of the loaded region up, refined every element of that
    mesh once, in iterator order and with one and the same counts, written
    the native file, and written the visualization file; and it did
    nothing else. *)
Theorem successful_run_trace (ia : InitArguments) :
  outcome (RefineAndExport rt ia) = Py.Ok tt ->
  exists r1 r2 region mesh n1 n2 n3,
    readFile rt (getDefaultRegion rt) (input_zinc_file ia) = Py.Ok r1 /\
    match input_exelem_file ia with
    | Some path => readFile rt r1 path = Py.Ok r2
    | None => r2 = r1
    end /\
    annotate rt r2 = Py.Ok region /\
    outcome (_get_mesh rt region) = Py.Ok mesh /\
    numbers_in_xi (refine ia) = Py.Ok (n1, n2, n3) /\
    trace (RefineAndExport rt ia) =
    (EvReadFile (input_zinc_file ia)
       :: match input_exelem_file ia with
          | Some path => [EvReadFile path]
          | None => []
          end
     ++ trace (_get_mesh rt region)
     ++ map (fun element => EvRefine element n1 n2 n3) (mesh_elements mesh)
     ++ [EvWriteFile (output_zinc_file ia);
         EvWriteVtk (output_vtk_file ia)])%list.
Proof.
  intros Hok.
  destruct (RefineAndExport_split ia)
    as [(e & t & _ & H)|(r1 & r2 & region & Hr1 & Hr2 & Ha & H)].
  { rewrite H in Hok. discriminate. }
  rewrite H in Hok |- *. clear H.
  destruct (_refine rt region (refine ia)) as [t [refined|e]] eqn:E;
    [|discriminate].
  assert (Eo : outcome (_refine rt region (refine ia)) = Py.Ok refined)
    by now rewrite E.
  destruct (_refine_ok_inv rt region (refine ia) refined Eo)
    as (mesh & n1 & n2 & n3 & Hn & Hm & Ht).
  rewrite E in Ht. cbn [trace fst] in Ht. subst t.
  destruct (writeFile rt refined (output_zinc_file ia)); [|discriminate].
  exists r1, r2, region, mesh, n1, n2, n3.
  repeat split; try assumption.
  cbn [trace fst]. now rewrite <- !app_assoc.
Qed.

(** X2.  What [RefineAndExport] never does: it writes nothing before
    [_refine] has returned, it writes nothing but the native file followed
    by the visualization file, each at most once, it attempts the
    visualization file only after the native write returned, and no other
    event follows a write. *)
Theorem writes_come_last (ia : InitArguments) :
  exists before after,
    trace (RefineAndExport rt ia) = (before ++ after)%list /\
    (forall ev, In ev before -> is_write ev = false) /\
    (after = [] \/
     after = [EvWriteFile (output_zinc_file ia)] \/
     after = [EvWriteFile (output_zinc_file ia);
              EvWriteVtk (output_vtk_file ia)]) /\
    (after <> [] ->
     exists region refined,
       outcome (_refine rt region (refine ia)) = Py.Ok refined /\
       (after = [EvWriteFile (output_zinc_file ia);
                 EvWriteVtk (output_vtk_file ia)] ->
        writeFile rt refined (output_zinc_file ia) = Py.Ok tt /\
        outcome (RefineAndExport rt ia) =
        exportVtk rt refined "Stomach Scaffold" (output_vtk_file ia))).
Proof.
  assert (Hreads : forall ev,
    In ev (@EvReadFile (Element rt) (input_zinc_file ia)
             :: match input_exelem_file ia with
                | Some path => [EvReadFile path]
                | None => []
                end) -> is_write ev = false).
  { intros ev [<-|H]; [reflexivity|].
    destruct (input_exelem_file ia); [destruct H as [<-|[]]|destruct H].
    reflexivity. }
  destruct (RefineAndExport_split ia)
    as [(e & t & Ht & H)|(r1 & r2 & region & _ & _ & _ & H)].
  { exists t, []. rewrite H. cbn [trace fst]. rewrite app_nil_r.
    repeat split; [|now left|congruence].
    intros ev Hin. destruct Ht as [-> | ->]; [|now apply Hreads].
    destruct Hin as [<-|[]]. reflexivity. }
  rewrite H. clear H.
  destruct (_refine rt region (refine ia)) as [t [refined|e]] eqn:E.
  - assert (Hbefore : forall ev,
      In ev ((@EvReadFile (Element rt) (input_zinc_file ia)
                :: match input_exelem_file ia with
                   | Some path => [EvReadFile path]
                   | None => []
                   end) ++ t)%list -> is_write ev = false).
    { intros ev Hin. apply in_app_or in Hin as [Hin|Hin]; [now apply Hreads|].
      assert (Hin' : In ev (trace (_refine rt region (refine ia))))
        by now rewrite E.
      apply _refine_events in Hin'.
      destruct Hin' as [(d & ->)|(el & n1 & n2 & n3 & -> & _)]; reflexivity. }
    assert (Eo : outcome (_refine rt region (refine ia)) = Py.Ok refined)
      by now rewrite E.
    destruct (writeFile rt refined (output_zinc_file ia)) as [[]|e] eqn:Ew.
    + eexists _, [EvWriteFile (output_zinc_file ia);
                  EvWriteVtk (output_vtk_file ia)].
      cbn [trace fst outcome snd]. rewrite app_assoc.
      repeat split; [exact Hbefore|now right; right|].
      intros _. exists region, refined. rewrite E. cbn [outcome snd].
      repeat split. exact Ew.
    + eexists _, [EvWriteFile (output_zinc_file ia)].
      cbn [trace fst outcome snd]. rewrite app_assoc.
      repeat split; [exact Hbefore|now right; left|].
      intros _. exists region, refined. rewrite E. cbn [outcome snd].
      split; [reflexivity|discriminate].
  - eexists _, []. cbn [trace fst]. rewrite app_nil_r.
    repeat split; [|now left|congruence].
    intros ev Hin. apply in_app_or in Hin as [Hin|Hin]; [now apply Hreads|].
    assert (Hin' : In ev (trace (_refine rt region (refine ia))))
      by now rewrite E.
    apply _refine_events in Hin'.
    destruct Hin' as [(d & ->)|(el & n1 & n2 & n3 & -> & _)]; reflexivity.
Qed.

(** X3.  The loop refines the elements in iterator order, each at most
    once and all with the same counts, and stops at the first call that
    raises: what it ends with is that call's exception, and the elements
    after it are never touched.  A loop that returns has refined every
    element. *)
Theorem refinement_stops_at_first_failure (factors : list Z)
    (n1 n2 n3 : Z) (mr : Refinement rt) (elements : list (Element rt)) :
  numbers_in_xi factors = Py.Ok (n1, n2, n3) ->
  exists k,
    (k <= List.length elements)%nat /\
    trace (refine_loop rt factors mr elements) =
    map (fun element => EvRefine element n1 n2 n3) (firstn k elements) /\
    match outcome (refine_loop rt factors mr elements) with
    | Py.Ok _ => k = List.length elements
    | Py.Raise e =>
        exists mr' element,
          (0 < k)%nat /\
          nth_error elements (k - 1) = Some element /\
          refineElementCubeStandard3d rt mr' element n1 n2 n3 = Py.Raise e
    end.
Proof.
  intros Hn. revert mr.
  induction elements as [|element rest IH]; intros mr.
  - exists 0%nat. cbn. repeat split. lia.
  - rewrite refine_loop_cons, Hn.
    destruct (refineElementCubeStandard3d rt mr element n1 n2 n3)
      as [mr'|e] eqn:Er.
    + destruct (IH mr') as (k & Hk & Ht & Ho).
      exists (S k). cbn [trace outcome fst snd List.length firstn map].
      rewrite Ht. repeat split; [lia|].
      destruct (outcome (refine_loop rt factors mr' rest)) as [r|e].
      * lia.
      * destruct Ho as (mr'' & el & Hpos & Hnth & Hraise).
        exists mr'', el. repeat split; [lia| |exact Hraise].
        destruct k as [|k']; [lia|].
        cbn [Nat.sub] in *. now rewrite Nat.sub_0_r in *.
    + exists 1%nat. cbn [trace outcome fst snd List.length firstn map].
      repeat split; [lia|].
      exists mr, element. repeat split; [lia|exact Er].
Qed.

(** X4.  Only the dominant mesh is refined: every element [_refine] hands
    to the refinement routine belongs to the mesh of the highest dimension
    that has elements; the elements of the meshes below it (the faces and
    lines of a three-dimensional model) are left alone. *)
Theorem only_dominant_mesh_is_refined (region : Region rt)
    (factors : list Z) (element : Element rt) (n1 n2 n3 : Z) :
  In (EvRefine element n1 n2 n3) (trace (_refine rt region factors)) ->
  exists d, In d [3; 2; 1] /\
    In element (mesh_elements (findMeshByDimension rt region d)) /\
    forall d', In d' [3; 2; 1] -> d < d' ->
               mesh_elements (findMeshByDimension rt region d') = [].
Proof.
  intros H. unfold _refine in H.
  in_bind_as H mr Emr; [in_emit H|].
  in_bind_as H mesh Em; [apply _get_mesh_events in H as [d H]; discriminate|].
  apply refine_loop_events in H
    as (el & m1 & m2 & m3 & Heq & Hin & _).
  injection Heq as <- _ _ _.
  destruct (_get_mesh_ok_inv rt region mesh Em) as (d & Hd & -> & _ & Hhigh).
  exists d. repeat split; [exact Hd|exact Hin|].
  intros d' Hd' Hlt. specialize (Hhigh d' Hd' Hlt).
  unfold getSize, Py.len in Hhigh.
  destruct (mesh_elements (findMeshByDimension rt region d'));
    [reflexivity|cbn in Hhigh; lia].
Qed.

(** X5.  An empty list of factors (what [-r ""] parses to) can never
    succeed: the first pass through the loop raises [IndexError] on
    [refine_factor[0]], so no element is refined, no file is written and
    the run ends with an exception. *)
Theorem empty_refine_factor_fails (ia : InitArguments) :
  refine ia = [] ->
  (forall ev, In ev (trace (RefineAndExport rt ia)) ->
              is_refine ev = false /\ is_write ev = false) /\
  (exists e, outcome (RefineAndExport rt ia) = Py.Raise e) /\
  (forall region mr mesh,
      MeshRefinement rt region = Py.Ok mr ->
      outcome (_get_mesh rt region) = Py.Ok mesh ->
      _refine rt region (refine ia) =
      (trace (_get_mesh rt region), Py.Raise Py.IndexError)).
Proof.
  intros Hempty.
  assert (Hno : forall region refined,
             outcome (_refine rt region (refine ia)) <> Py.Ok refined).
  { intros region refined Hok.
    apply _refine_ok_inv in Hok as (_ & n1 & n2 & n3 & Hn & _).
    rewrite Hempty in Hn. discriminate. }
  split; [|split].
  - intros ev H. apply RefineAndExport_events in H.
    destruct H as [->|[(p & _ & ->)|[(d & ->)|[(e & m1 & m2 & m3 & _ & Hn)|
                  [_ (region & refined & Hok)]]]]]; try (split; reflexivity).
    + rewrite Hempty in Hn. discriminate.
    + now apply Hno in Hok.
  - destruct (outcome (RefineAndExport rt ia)) as [[]|e] eqn:E; [|eauto].
    apply RefineAndExport_ok in E as (region & refined & Hok).
    now apply Hno in Hok.
  - intros region mr mesh Hmr Hm. unfold _refine. rewrite Hmr, bind_lift_ok.
    rewrite (surjective_pairing (bind _ _)).
    change (fst ?m) with (trace m). change (snd ?m) with (outcome m).
    rewrite trace_bind, outcome_bind, Hm.
    destruct (_get_mesh_nonempty rt region mesh Hm) as (el & rest & ->).
    rewrite refine_loop_cons, Hempty. cbn. now rewrite app_nil_r.
Qed.

End RunTheorems.

(* ===================================================================== *)
(** * Further facts: paths *)
(* ===================================================================== *)

Section PathFacts.
Import Py.

Lemma count_app (c : ascii) (a b : string) :
  count c (a ++ b) = count c a + count c b.
Proof.
  induction a as [|c' a IH]; cbn [append count]; [reflexivity|].
  rewrite IH. lia.
Qed.

Lemma length_app (a b : string) :
  String.length (a ++ b) = (String.length a + String.length b)%nat.
Proof. induction a as [|c a IH]; cbn; [reflexivity|now rewrite IH]. Qed.

Lemma append_assoc (a b c : string) : ((a ++ b) ++ c)%string = (a ++ b ++ c)%string.
Proof. induction a as [|x a IH]; cbn; [reflexivity|now rewrite IH]. Qed.

(** No piece of [split] holds more of a character than the string did. *)
Lemma split_pieces_count (c sep : ascii) (s piece : string) :
  In piece (split sep s) -> count c piece <= count c s.
Proof.
  revert piece. induction s as [|c' s IH]; intros piece; cbn [split].
  - intros [<-|[]]. lia.
  - pose proof (count_nonneg c s) as Hs.
    assert (Hc : 0 <= (if Ascii.eqb c' c then 1 else 0))
      by (destruct (Ascii.eqb c' c); lia).
    destruct (Ascii.eqb c' sep).
    + intros [<-|Hin]; cbn [count]; [lia|].
      specialize (IH _ Hin). lia.
    + destruct (split sep s) as [|h t] eqn:E.
      * now apply split_not_nil in E.
      * intros [<-|Hin]; cbn [count].
        -- specialize (IH h (or_introl eq_refl)). lia.
        -- specialize (IH piece (or_intror Hin)). lia.
Qed.

Lemma rfind_lower (sep : ascii) (s : string) : -1 <= rfind sep s.
Proof.
  induction s as [|c s IH]; cbn [rfind]; [lia|].
  destruct (0 <=? rfind sep s) eqn:E; [apply Z.leb_le in E; lia|].
  destruct (Ascii.eqb c sep); lia.
Qed.

(** A string is free of [sep], or is cut at its last [sep]. *)
Lemma rfind_cases (sep : ascii) (s : string) :
  (count sep s = 0 /\ rfind sep s = -1) \/
  (exists a b, s = (a ++ String sep b)%string /\ count sep b = 0 /\
               rfind sep s = Z.of_nat (String.length a)).
Proof.
  induction s as [|c s IH].
  - left. split; reflexivity.
  - destruct IH as [[H0 Hr]|(a & b & -> & Hb & Hr)].
    + destruct (Ascii.eqb c sep) eqn:E.
      * apply Ascii.eqb_eq in E. subst c. right.
        exists EmptyString, s. repeat split; [exact H0|].
        cbn [rfind]. rewrite Hr. cbn. now rewrite Ascii.eqb_refl.
      * left. cbn [count rfind]. rewrite E, H0, Hr. split; reflexivity.
    + right. exists (String c a), b. repeat split; [exact Hb|].
      exact (rfind_last_sep sep (String c a) b Hb).
Qed.

(** The file name of a path holds no ['/']. *)
Lemma basename_no_sep (p : string) :
  count PosixPath.sep (PosixPath.basename p) = 0.
Proof.
  unfold PosixPath.basename, slice_from.
  destruct (rfind_cases PosixPath.sep p) as [[H0 Hr]|(a & b & -> & Hb & Hr)].
  - rewrite Hr. exact H0.
  - rewrite Hr.
    replace (Z.to_nat (Z.of_nat (String.length a) + 1))
      with (String.length (a ++ String PosixPath.sep ""))
      by (rewrite length_app; cbn; lia).
    replace (a ++ String PosixPath.sep b)%string
      with ((a ++ String PosixPath.sep "") ++ b)%string
      by (now rewrite append_assoc).
    now rewrite drop_app.
Qed.

Lemma all_chars_rstrip (c : ascii) (s : string) :
  all_chars c s = true -> rstrip s c = "".
Proof.
  induction s as [|c' s IH]; cbn [all_chars rstrip]; [reflexivity|].
  intros H. apply andb_true_iff in H as [Hc Hs].
  now rewrite (IH Hs), Hc.
Qed.

(** Stripping a string that is not all [c] leaves a string that does not
    end in [c]. *)
Lemma rstrip_shape (c : ascii) (s : string) :
  all_chars c s = false ->
  endswith (rstrip s c) c = false /\ all_chars c (rstrip s c) = false.
Proof.
  induction s as [|c' s IH]; cbn [all_chars rstrip]; [discriminate|].
  intros H. destruct (rstrip s c) as [|x r] eqn:Er.
  - destruct (Ascii.eqb c' c) eqn:Ec.
    + cbn [andb] in H. destruct (IH H) as [_ Hall]. discriminate.
    + cbn. rewrite Ec. split; reflexivity.
  - destruct (all_chars c s) eqn:Es.
    + rewrite (all_chars_rstrip c s Es) in Er. discriminate.
    + destruct (IH eq_refl) as [Hend Hall]. split.
      * exact Hend.
      * change (Ascii.eqb c' c && all_chars c (String x r) = false).
        rewrite Hall. apply andb_false_r.
Qed.

Lemma rstrip_id (c : ascii) (s : string) :
  endswith s c = false -> rstrip s c = s.
Proof.
  induction s as [|c' s IH]; [reflexivity|].
  cbn [rstrip]. destruct s as [|x s'].
  - cbn. now intros ->.
  - intros H. change (endswith (String x s') c = false) in H.
    now rewrite (IH H).
Qed.

Lemma rstrip_snoc (c : ascii) (s : string) :
  rstrip (s ++ String c "") c = rstrip s c.
Proof.
  induction s as [|c' s IH]; cbn [append rstrip].
  - now rewrite Ascii.eqb_refl.
  - now rewrite IH.
Qed.

Lemma all_chars_app (c : ascii) (a b : string) :
  all_chars c (a ++ b) = all_chars c a && all_chars c b.
Proof.
  induction a as [|x a IH]; cbn [append all_chars]; [reflexivity|].
  now rewrite IH, andb_assoc.
Qed.

(** A non-empty string of [c]s ends in [c]. *)
Lemma all_chars_snoc (c : ascii) (s : string) :
  all_chars c s = true -> s <> "" ->
  exists s', s = (s' ++ String c "")%string.
Proof.
  induction s as [|c' s IH]; [congruence|].
  cbn [all_chars]. intros H _. apply andb_true_iff in H as [Hc Hs].
  apply Ascii.eqb_eq in Hc. subst c'.
  destruct s as [|x s'].
  - now exists "".
  - destruct (IH Hs) as [s'' Hs'']; [discriminate|].
    exists (String c s''). cbn [append]. now rewrite <- Hs''.
Qed.

Lemma endswith_snoc (c : ascii) (s : string) :
  endswith (s ++ String c "") c = true.
Proof.
  induction s as [|c' s IH]; cbn [append endswith].
  - apply Ascii.eqb_refl.
  - destruct (s ++ String c "")%string eqn:E; [|exact IH].
    destruct s; discriminate.
Qed.

(** A directory name is made of ['/'] only (possibly empty) or does not
    end in ['/']. *)
Lemma dirname_shape (p : string) :
  all_chars PosixPath.sep (PosixPath.dirname p) = true \/
  (endswith (PosixPath.dirname p) PosixPath.sep = false /\
   all_chars PosixPath.sep (PosixPath.dirname p) = false).
Proof.
  unfold PosixPath.dirname. cbv zeta.
  set (head := slice_to p (rfind PosixPath.sep p + 1)).
  destruct (String.eqb head "") eqn:E0.
  - apply String.eqb_eq in E0. rewrite E0. now left.
  - cbn [negb andb].
    destruct (all_chars PosixPath.sep head) eqn:Ea; cbn [negb].
    + now left.
    + right. now apply rstrip_shape.
Qed.

(** Joining a directory name and a file name, then taking the result apart
    again, gives both back. *)
Lemma dirname_basename_join (d name : string) :
  count PosixPath.sep name = 0 ->
  all_chars PosixPath.sep d = true \/
  (endswith d PosixPath.sep = false /\ all_chars PosixPath.sep d = false) ->
  PosixPath.dirname (PosixPath.join d name) = d /\
  PosixPath.basename (PosixPath.join d name) = name.
Proof.
  intros Hname Hd.
  assert (Hstart : startswith name PosixPath.sep = false).
  { destruct name as [|x name]; [reflexivity|].
    cbn [startswith count] in *.
    pose proof (count_nonneg PosixPath.sep name).
    destruct (Ascii.eqb x PosixPath.sep); [lia|reflexivity]. }
  unfold PosixPath.join. rewrite Hstart.
  assert (Hcut : forall a, all_chars PosixPath.sep (a ++ String PosixPath.sep "") = true \/
                           endswith a PosixPath.sep = false ->
     PosixPath.dirname (a ++ String PosixPath.sep name) =
       (if all_chars PosixPath.sep (a ++ String PosixPath.sep "")
        then (a ++ String PosixPath.sep "")%string else a) /\
     PosixPath.basename (a ++ String PosixPath.sep name) = name).
  { intros a Ha.
    unfold PosixPath.dirname, PosixPath.basename, slice_to, slice_from.
    cbv zeta. rewrite (rfind_last_sep PosixPath.sep a name Hname).
    replace (Z.to_nat (Z.of_nat (String.length a) + 1))
      with (String.length (a ++ String PosixPath.sep ""))
      by (rewrite length_app; cbn; lia).
    replace (a ++ String PosixPath.sep name)%string
      with ((a ++ String PosixPath.sep "") ++ name)%string
      by (now rewrite append_assoc).
    rewrite take_app, drop_app. split; [|reflexivity].
    replace (String.eqb (a ++ String PosixPath.sep "") "") with false
      by (destruct a; reflexivity).
    cbn [negb andb].
    destruct (all_chars PosixPath.sep (a ++ String PosixPath.sep "")) eqn:Ea;
      cbn [negb]; [reflexivity|].
    destruct Ha as [Ha|Ha]; [discriminate|].
    now rewrite rstrip_snoc, rstrip_id. }
  destruct Hd as [Hall|[Hend Hall]].
  - destruct d as [|x d'].
    + cbn [String.eqb orb append].
      unfold PosixPath.dirname, PosixPath.basename, slice_to, slice_from.
      cbv zeta. rewrite (rfind_no_sep _ _ Hname). cbn. split; reflexivity.
    + destruct (all_chars_snoc _ _ Hall) as [a Ha]; [discriminate|].
      replace (String.eqb (String x d') "") with false by reflexivity.
      rewrite Ha, endswith_snoc. cbn [orb].
      rewrite append_assoc. cbn [append].
      rewrite Ha in Hall.
      destruct (Hcut a (or_introl Hall)) as [Hdir Hbase].
      now rewrite Hdir, Hbase, Hall.
  - assert (Hne : String.eqb d "" = false) by (destruct d; [discriminate|reflexivity]).
    rewrite Hne, Hend. cbn [orb].
    destruct (Hcut d (or_intror Hend)) as [Hdir Hbase].
    rewrite Hdir, Hbase. split; [|reflexivity].
    now rewrite all_chars_app, Hall.
Qed.

End PathFacts.

(** X6.  The default output paths lie beside the input: whenever a default
    path derives, its directory is the input's directory, and its file
    name is built from the first pieces of the input's file name, ['.']
    being the separator. *)
Theorem default_outputs_beside_input (input : string) :
  (forall out, default_output_ex input = Py.Ok out ->
     PosixPath.dirname out = PosixPath.dirname input /\
     exists stem ext rest,
       Py.split "."%char (PosixPath.basename input) = stem :: ext :: rest /\
       PosixPath.basename out = (stem ++ "_refined." ++ ext)%string) /\
  (forall out, default_output_vtk input = Py.Ok out ->
     PosixPath.dirname out = PosixPath.dirname input /\
     exists stem rest,
       Py.split "."%char (PosixPath.basename input) = stem :: rest /\
       PosixPath.basename out = (stem ++ "_refined.vtk")%string).
Proof.
  assert (Hpiece : forall piece,
             In piece (Py.split "."%char (PosixPath.basename input)) ->
             Py.count PosixPath.sep piece = 0).
  { intros piece Hin.
    pose proof (split_pieces_count PosixPath.sep "."%char _ _ Hin).
    pose proof (basename_no_sep input).
    pose proof (count_nonneg PosixPath.sep piece). lia. }
  split; intros out.
  - unfold default_output_ex. cbv zeta. rewrite index_0, index_1.
    destruct (Py.split "."%char (PosixPath.basename input))
      as [|stem [|ext rest]]; try discriminate.
    intros [= <-].
    assert (Hname : Py.count PosixPath.sep (stem ++ "_refined." ++ ext) = 0).
    { rewrite !count_app, (Hpiece stem), (Hpiece ext) by (cbn; tauto).
      reflexivity. }
    destruct (dirname_basename_join (PosixPath.dirname input) _ Hname
                (dirname_shape input)) as [Hd Hb].
    split; [exact Hd|]. exists stem, ext, rest. split; [reflexivity|exact Hb].
  - unfold default_output_vtk. cbv zeta. rewrite index_0.
    destruct (Py.split "."%char (PosixPath.basename input))
      as [|stem rest]; try discriminate.
    intros [= <-].
    assert (Hname : Py.count PosixPath.sep (stem ++ "_refined.vtk") = 0).
    { rewrite count_app, (Hpiece stem) by (cbn; tauto). reflexivity. }
    destruct (dirname_basename_join (PosixPath.dirname input) _ Hname
                (dirname_shape input)) as [Hd Hb].
    split; [exact Hd|]. exists stem, rest. split; [reflexivity|exact Hb].
Qed.

(** A file name with a ['.'] always yields a native default path. *)
Lemma default_output_ex_dotted (input : string) :
  1 <= Py.count "."%char (PosixPath.basename input) ->
  exists out, default_output_ex input = Py.Ok out.
Proof.
  intros H1. unfold default_output_ex. cbv zeta.
  pose proof (len_split "."%char (PosixPath.basename input)) as Hlen.
  rewrite index_0, index_1.
  destruct (Py.split "."%char (PosixPath.basename input))
    as [|stem [|ext rest]]; cbn in Hlen; try lia.
  eauto.
Qed.

(** The parser returns, or raises [ValueError] on a character that is not
    a decimal digit. *)
Lemma parse_refine_factor_cases (s : string) :
  (exists factors, parse_refine_factor s = Py.Ok factors) \/
  (parse_refine_factor s = Py.Raise Py.ValueError /\
   Exists (fun c => Py.is_decimal c = false) (list_ascii_of_string s)).
Proof.
  unfold parse_refine_factor.
  induction (list_ascii_of_string s) as [|c l IH]; cbn [Py.comprehension].
  - left. eauto.
  - destruct (Py.is_decimal c) eqn:Ec.
    + assert (Hint : Py.int_of_char c = Py.Ok (Z.of_N (N_of_ascii c) - 48))
        by (unfold Py.int_of_char; now rewrite Ec).
      rewrite Hint.
      destruct IH as [[factors ->]|[-> Hex]]; [left; eauto|].
      right. split; [reflexivity|now apply Exists_cons_tl].
    + rewrite (int_of_char_not_decimal c Ec).
      right. split; [reflexivity|now apply Exists_cons_hd].
Qed.

(** X7.  Preparing the arguments can fail in two ways only.  It raises
    [IndexError] exactly when [-oe] is omitted and the input's file name
    holds no ['.'], whatever [-r] holds; it raises [ValueError] exactly
    when that is not the case and [-r] holds a character that is not a
    decimal digit; the default of [-ov] never fails. *)
Theorem argument_errors (args : ProgramArguments) :
  (main_call args = Py.Raise Py.IndexError <->
   output_ex args = None /\
   Py.count "."%char (PosixPath.basename (input_ex args)) = 0) /\
  (main_call args = Py.Raise Py.ValueError <->
   ~ (output_ex args = None /\
      Py.count "."%char (PosixPath.basename (input_ex args)) = 0) /\
   exists s, refine_factor args = Some s /\
             Exists (fun c => Py.is_decimal c = false)
                    (list_ascii_of_string s)) /\
  (forall e, main_call args = Py.Raise e ->
             e = Py.IndexError \/ e = Py.ValueError).
Proof.
  pose proof (count_nonneg "."%char (PosixPath.basename (input_ex args)))
    as Hc.
  assert (Hparse : forall s factors,
             parse_refine_factor s = Py.Ok factors ->
             ~ Exists (fun c => Py.is_decimal c = false)
                      (list_ascii_of_string s)).
  { intros s factors Hok Hex. unfold parse_refine_factor in Hok.
    rewrite (comprehension_raises Py.int_of_char _ Py.ValueError) in Hok;
      [discriminate| |].
    - intros c e. unfold Py.int_of_char.
      destruct (Py.is_decimal c); [discriminate|now intros [= <-]].
    - eapply Exists_impl; [|exact Hex].
      intros c Hd. unfold Py.int_of_char. now rewrite Hd. }
  assert (Hfirst : (output_ex args = None /\
                    Py.count "."%char (PosixPath.basename (input_ex args)) = 0 /\
                    main_call args = Py.Raise Py.IndexError) \/
                   (~ (output_ex args = None /\
                       Py.count "."%char
                                (PosixPath.basename (input_ex args)) = 0) /\
                    exists oe ov,
                      main_call args =
                      match match refine_factor args with
                            | None => Py.Ok [4; 4; 1]
                            | Some s => parse_refine_factor s
                            end with
                      | Py.Raise e => Py.Raise e
                      | Py.Ok factors =>
                          Py.Ok {| input_zinc_file := input_ex args;
                                   input_exelem_file := None;
                                   refine := factors;
                                   output_zinc_file := oe;
                                   output_vtk_file := ov |}
                      end)).
  { assert (Hvtk : exists ov,
               match output_vtk args with
               | None => default_output_vtk (input_ex args)
               | Some p => Py.Ok p
               end = Py.Ok ov).
    { destruct (output_vtk args) as [p|]; [eauto|].
      destruct (default_output_vtk_total (input_ex args)) as (stem & _ & ->).
      eauto. }
    destruct Hvtk as [ov Hov].
    unfold main_call. rewrite Hov.
    destruct (output_ex args) as [p|].
    - right. split; [now intros [? _]|]. eauto.
    - assert (Hcases : Py.count "."%char
                         (PosixPath.basename (input_ex args)) = 0 \/
                       1 <= Py.count "."%char
                              (PosixPath.basename (input_ex args))) by lia.
      destruct Hcases as [H0|H1].
      + left. rewrite (default_output_ex_no_dot _ H0). auto.
      + right. split; [intros [_ H0]; lia|].
        destruct (default_output_ex_dotted _ H1) as [oe ->]. eauto. }
  destruct Hfirst as [(Hoe & H0 & Hm)|(Hnot & oe & ov & Hm)].
  - rewrite Hm. repeat split; try tauto; try discriminate.
    intros e [= <-]. now left.
  - rewrite Hm. destruct (refine_factor args) as [s|].
    + destruct (parse_refine_factor_cases s) as [[factors Hok]|[Hraise Hex]].
      * rewrite Hok. repeat split; try discriminate; try tauto.
        all: try (intros (_ & s' & Hs & Hex); injection Hs as <-;
           now apply (Hparse s factors Hok) in Hex).
      * rewrite Hraise. repeat split; try discriminate; try tauto.
        all: try (intros e [= <-]; now right).
        all: eauto.
    + repeat split; try discriminate; try tauto.
      intros (_ & s' & Hs & _). discriminate.
Qed.

(** X8.  Output paths given on the command line are used as they are:
    with [-oe] the only native file a run writes is that path, with [-ov]
    the only visualization file is that path, whatever the input's file
    name. *)
Theorem explicit_output_paths_are_used (rt : Runtime)
    (args : ProgramArguments) :
  (forall oe path,
      output_ex args = Some oe ->
      In (EvWriteFile path) (trace (main rt args)) -> path = oe) /\
  (forall ov path,
      output_vtk args = Some ov ->
      In (EvWriteVtk path) (trace (main rt args)) -> path = ov).
Proof.
  split.
  - intros oe path Hoe H.
    apply main_events in H as (_ & a & Hcall & _ & H).
    apply main_call_ok in Hcall as (_ & _ & Ho & _).
    rewrite Hoe in Ho. injection Ho as Ho.
    apply RefineAndExport_events in H.
    destruct H as [H|[(p & _ & H)|[(d & H)|[(e & m1 & m2 & m3 & H & _)|[[H|H] _]]]]];
      try discriminate.
    injection H as ->. now symmetry.
  - intros ov path Hov H.
    apply main_events in H as (_ & a & Hcall & _ & H).
    apply main_call_ok in Hcall as (_ & _ & _ & Ho & _).
    rewrite Hov in Ho. injection Ho as Ho.
    apply RefineAndExport_events in H.
    destruct H as [H|[(p & _ & H)|[(d & H)|[(e & m1 & m2 & m3 & H & _)|[[H|H] _]]]]];
      try discriminate.
    injection H as ->. now symmetry.
Qed.

(** The two-quadrilateral model, refined and exported. *)
Lemma successful_run_trace_witness :
  outcome (RefineAndExport SpecEngine.sample
             {| input_zinc_file := "/data/quads.exf";
                input_exelem_file := None;
                refine := [2; 3];
                output_zinc_file := "/out/q.exf";
                output_vtk_file := "/out/q.vtk" |}) = Py.Ok tt /\
  exists r1 r2 region mesh n1 n2 n3,
    readFile SpecEngine.sample (getDefaultRegion SpecEngine.sample)
             "/data/quads.exf" = Py.Ok r1 /\
    r2 = r1 /\
    annotate SpecEngine.sample r2 = Py.Ok region /\
    outcome (_get_mesh SpecEngine.sample region) = Py.Ok mesh /\
    numbers_in_xi [2; 3] = Py.Ok (n1, n2, n3) /\
    trace (RefineAndExport SpecEngine.sample
             {| input_zinc_file := "/data/quads.exf";
                input_exelem_file := None;
                refine := [2; 3];
                output_zinc_file := "/out/q.exf";
                output_vtk_file := "/out/q.vtk" |}) =
    (EvReadFile "/data/quads.exf" :: []
     ++ trace (_get_mesh SpecEngine.sample region)
     ++ map (fun element => EvRefine element n1 n2 n3) (mesh_elements mesh)
     ++ [EvWriteFile "/out/q.exf"; EvWriteVtk "/out/q.vtk"])%list.
Proof.
  split; [reflexivity|].
  exact (successful_run_trace SpecEngine.sample
           {| input_zinc_file := "/data/quads.exf";
              input_exelem_file := None;
              refine := [2; 3];
              output_zinc_file := "/out/q.exf";
              output_vtk_file := "/out/q.vtk" |} eq_refl).
Defined.

(** Two elements under counts the engine refuses: the loop stops at the
    first. *)
Lemma refinement_stops_at_first_failure_witness :
  numbers_in_xi [2; 0] = Py.Ok (2, 0, 1) /\
  refine_loop SpecEngine.sample [2; 0] [] [1%nat; 2%nat] =
  ([EvRefine 1%nat 2 0 1],
   Py.Raise (Py.LibraryError "InvalidRefinementSpecError")) /\
  exists k,
    (k <= 2)%nat /\
    trace (refine_loop SpecEngine.sample [2; 0] [] [1%nat; 2%nat]) =
    map (fun element => EvRefine element 2 0 1) (firstn k [1%nat; 2%nat]) /\
    match outcome (refine_loop SpecEngine.sample [2; 0] [] [1%nat; 2%nat]) with
    | Py.Ok _ => k = 2%nat
    | Py.Raise e =>
        exists mr' element,
          (0 < k)%nat /\
          nth_error [1%nat; 2%nat] (k - 1) = Some element /\
          refineElementCubeStandard3d SpecEngine.sample mr' element 2 0 1 =
          Py.Raise e
    end.
Proof.
  split; [reflexivity|]. split; [reflexivity|].
  exact (refinement_stops_at_first_failure SpecEngine.sample [2; 0] 2 0 1
           [] [1%nat; 2%nat] eq_refl).
Defined.

(** A region with one hexahedron and two quadrilaterals: the hexahedron is
    refined. *)
Lemma only_dominant_mesh_is_refined_witness :
  In (EvRefine 1%nat 4 4 1)
     (trace (_refine SpecEngine.sample
               [(2, 5%nat); (3, 1%nat); (2, 6%nat)] [4; 4; 1])) /\
  exists d, In d [3; 2; 1] /\
    In 1%nat (mesh_elements
                (findMeshByDimension SpecEngine.sample
                   [(2, 5%nat); (3, 1%nat); (2, 6%nat)] d)) /\
    forall d', In d' [3; 2; 1] -> d < d' ->
      mesh_elements
        (findMeshByDimension SpecEngine.sample
           [(2, 5%nat); (3, 1%nat); (2, 6%nat)] d') = [].
Proof.
  assert (H : In (EvRefine 1%nat 4 4 1)
     (trace (_refine SpecEngine.sample
               [(2, 5%nat); (3, 1%nat); (2, 6%nat)] [4; 4; 1])))
    by (right; left; reflexivity).
  split; [exact H|].
  exact (only_dominant_mesh_is_refined SpecEngine.sample _ _ _ _ _ _ H).
Defined.

(** The one-hexahedron model with no factor at all. *)
Lemma empty_refine_factor_fails_witness :
  parse_refine_factor "" = Py.Ok [] /\
  RefineAndExport SpecEngine.sample
    {| input_zinc_file := "/data/mesh.exf";
       input_exelem_file := None;
       refine := [];
       output_zinc_file := "/out/m.exf";
       output_vtk_file := "/out/m.vtk" |} =
  ([EvReadFile "/data/mesh.exf"; EvFindMesh 3], Py.Raise Py.IndexError) /\
  exists e,
    outcome (RefineAndExport SpecEngine.sample
               {| input_zinc_file := "/data/mesh.exf";
                  input_exelem_file := None;
                  refine := [];
                  output_zinc_file := "/out/m.exf";
                  output_vtk_file := "/out/m.vtk" |}) = Py.Raise e.
Proof.
  split; [reflexivity|]. split; [reflexivity|].
  exact (proj1 (proj2 (empty_refine_factor_fails SpecEngine.sample
           {| input_zinc_file := "/data/mesh.exf";
              input_exelem_file := None;
              refine := [];
              output_zinc_file := "/out/m.exf";
              output_vtk_file := "/out/m.vtk" |} eq_refl))).
Defined.

(* ===================================================================== *)
(** * Further facts: where exceptions come from *)
(* ===================================================================== *)

Section ErrorFacts.
Context (rt : Runtime).
Implicit Types (ev : Event (Element rt)) (factors : list Z).

(** An exception of the loop is the [IndexError] of an empty factor list
    or an exception of the refinement routine. *)
Lemma refine_loop_raise factors mr elements e :
  outcome (refine_loop rt factors mr elements) = Py.Raise e ->
  (e = Py.IndexError /\ factors = []) \/
  (exists mr' element n1 n2 n3,
      refineElementCubeStandard3d rt mr' element n1 n2 n3 = Py.Raise e).
Proof.
  revert mr. induction elements as [|element rest IH]; intros mr.
  - discriminate.
  - rewrite refine_loop_cons, numbers_in_xi_spec.
    destruct factors as [|f1 others].
    + intros [= <-]. now left.
    + destruct (refineElementCubeStandard3d rt mr element f1
                  (nth 0 others 1) (nth 1 others 1)) as [mr'|e'] eqn:Er.
      * cbn [outcome snd]. intros H. exact (IH mr' H).
      * intros [= <-]. right. eauto 6.
Qed.

(** An exception of [_refine] is one of the script's own two, or an
    exception of the runtime. *)
Lemma _refine_raise region factors e :
  outcome (_refine rt region factors) = Py.Raise e ->
  (e = Py.IndexError /\ factors = []) \/
  (e = Py.ValueError /\
   forall d, In d [3; 2; 1] ->
             mesh_elements (findMeshByDimension rt region d) = []) \/
  MeshRefinement rt region = Py.Raise e \/
  (exists mr' element n1 n2 n3,
      refineElementCubeStandard3d rt mr' element n1 n2 n3 = Py.Raise e).
Proof.
  unfold _refine.
  destruct (MeshRefinement rt region) as [mr|e'] eqn:Emr.
  - rewrite bind_lift_ok, outcome_bind.
    destruct (outcome (_get_mesh rt region)) as [mesh|e'] eqn:Em.
    + intros H. apply refine_loop_raise in H. tauto.
    + intros [= <-]. right; left.
      rewrite _get_mesh_cascade in Em. cbv zeta in Em.
      assert (Hzero : forall m : Mesh (Element rt),
                 (0 <? getSize m) = false -> mesh_elements m = []).
      { intros m H. apply Z.ltb_ge in H. unfold getSize, Py.len in H.
        destruct (mesh_elements m); [reflexivity|cbn in H; lia]. }
      destruct (0 <? getSize (findMeshByDimension rt region 3)) eqn:E3;
        [discriminate|].
      destruct (0 <? getSize (findMeshByDimension rt region 2)) eqn:E2;
        [discriminate|].
      destruct (0 <? getSize (findMeshByDimension rt region 1)) eqn:E1;
        [discriminate|].
      injection Em as <-. split; [reflexivity|].
      intros d [<-|[<-|[<-|[]]]]; now apply Hzero.
  - rewrite bind_lift_raise. intros [= <-]. tauto.
Qed.

(** X9.  The script catches nothing and raises two exceptions of its own:
    when [RefineAndExport] ends with an exception, that exception is the
    [IndexError] of an empty factor list, the [ValueError] of a model
    without elements, or the exception one of the runtime's calls
    raised. *)
Theorem exceptions_of_RefineAndExport (ia : InitArguments) (e : Py.exn) :
  outcome (RefineAndExport rt ia) = Py.Raise e ->
  (e = Py.IndexError /\ refine ia = []) \/
  (e = Py.ValueError /\
   exists region,
     forall d, In d [3; 2; 1] ->
               mesh_elements (findMeshByDimension rt region d) = []) \/
  (exists region path, readFile rt region path = Py.Raise e) \/
  (exists region, annotate rt region = Py.Raise e) \/
  (exists region, MeshRefinement rt region = Py.Raise e) \/
  (exists mr element n1 n2 n3,
      refineElementCubeStandard3d rt mr element n1 n2 n3 = Py.Raise e) \/
  (exists refined path, writeFile rt refined path = Py.Raise e) \/
  (exists refined description path,
      exportVtk rt refined description path = Py.Raise e).
Proof.
  unfold RefineAndExport.
  rewrite outcome_bind. cbn [emit outcome snd].
  rewrite outcome_bind. cbn [lift outcome snd].
  destruct (readFile rt (getDefaultRegion rt) (input_zinc_file ia))
    as [r1|e1] eqn:E1; [|intros [= <-]; eauto 10].
  rewrite outcome_bind.
  destruct (input_exelem_file ia) as [path|];
    [ rewrite outcome_bind; cbn [emit lift outcome snd];
      destruct (readFile rt r1 path) as [r2|e2] eqn:E2;
      [|intros [= <-]; eauto 10]
    | cbn [ret outcome snd] ].
  all: rewrite outcome_bind; cbn [lift outcome snd].
  all: match goal with
       | |- context [annotate rt ?r] =>
           destruct (annotate rt r) as [r3|e3] eqn:E3;
           [|intros [= <-]; eauto 10]
       end.
  all: rewrite outcome_bind.
  all: destruct (outcome (_refine rt r3 (refine ia))) as [refined|e4] eqn:E4;
    [ rewrite outcome_bind; cbn [emit outcome snd];
      rewrite outcome_bind; cbn [lift outcome snd];
      destruct (writeFile rt refined (output_zinc_file ia)) as [u|e5] eqn:E5;
      [ rewrite outcome_bind; cbn [emit lift outcome snd];
        intros H; do 7 right; eauto
      | intros [= <-]; do 6 right; left; eauto ]
    | intros [= <-]; apply _refine_raise in E4;
      destruct E4 as [?|[[? ?]|[?|?]]]; eauto 12 ].
Qed.

End ErrorFacts.

(** A model without elements. *)
Lemma exceptions_of_RefineAndExport_witness :
  outcome (RefineAndExport SpecEngine.sample
             {| input_zinc_file := "/data/empty.exf";
                input_exelem_file := None;
                refine := [4; 4; 1];
                output_zinc_file := "/out/e.exf";
                output_vtk_file := "/out/e.vtk" |}) =
    Py.Raise Py.ValueError /\
  ((Py.ValueError = Py.IndexError /\ [4; 4; 1] = []) \/
   (Py.ValueError = Py.ValueError /\
    exists region,
      forall d, In d [3; 2; 1] ->
        mesh_elements (findMeshByDimension SpecEngine.sample region d) = []) \/
   (exists region path,
       readFile SpecEngine.sample region path = Py.Raise Py.ValueError) \/
   (exists region, annotate SpecEngine.sample region = Py.Raise Py.ValueError) \/
   (exists region,
       MeshRefinement SpecEngine.sample region = Py.Raise Py.ValueError) \/
   (exists mr element n1 n2 n3,
       refineElementCubeStandard3d SpecEngine.sample mr element n1 n2 n3 =
       Py.Raise Py.ValueError) \/
   (exists refined path,
       writeFile SpecEngine.sample refined path = Py.Raise Py.ValueError) \/
   (exists refined description path,
       exportVtk SpecEngine.sample refined description path =
       Py.Raise Py.ValueError)).
Proof.
  split; [reflexivity|].
  exact (exceptions_of_RefineAndExport SpecEngine.sample
           {| input_zinc_file := "/data/empty.exf";
              input_exelem_file := None;
              refine := [4; 4; 1];
              output_zinc_file := "/out/e.exf";
              output_vtk_file := "/out/e.vtk" |} Py.ValueError eq_refl).
Defined.
